(** * Multi-tenant control plane: the tenant-scoped request dispatcher

    A shallow embedding of [control_plane/config.py], [audit.py], [auth.py],
    [graph_client.py] and [tenant_manager.py].  Python objects become records,
    exceptions become the [Raise] branch of [outcome], and everything the code
    does to the outside world (logging, sleeping, HTTP calls, token requests,
    clock and UUID draws) is threaded through an explicit [World]. *)

From stdpp Require Import gmap strings list fin_maps pretty.
From Stdlib Require Import Ascii ZArith QArith Lia.

Open Scope string_scope.
Open Scope list_scope.
Open Scope Z_scope.

(** ** Python values *)

(** A Python [float]: a finite value (every finite binary64 is a rational),
    an infinity, or NaN. *)
Inductive pyfloat :=
| Fin (q : Q)
| Inf (negative : bool)
| NaN.

(** The values passed as keyword arguments to the audit logger. *)
Inductive pyval :=
| PNone
| PStr (s : string)
| PInt (z : Z)
| PFloat (f : pyfloat)
| PList (l : list string).

(** A [**kwargs] dictionary, in insertion order. *)
Definition kwargs := list (string * pyval).

(** [d.get(key)]: the value stored under [key], [None] when absent. *)
Fixpoint kwargs_get (key : string) (d : kwargs) : pyval :=
  match d with
  | [] => PNone
  | (k, v) :: d' => if decide (k = key) then v else kwargs_get key d'
  end.

(** Truth value of an [Optional[str]]: [None] and the empty string are falsy. *)
Definition truthy_str (o : option string) : bool :=
  match o with
  | Some (String _ _) => true
  | _ => false
  end.

(** Truth value of a [float]: only zero is falsy (NaN and infinities are truthy). *)
Definition truthy_float (f : pyfloat) : bool :=
  match f with
  | Fin q => negb (Qeq_bool q 0)
  | _ => true
  end.

(** [seq[:limit]] for an [int] limit; a negative limit counts from the end. *)
Definition slice_to {A} (limit : Z) (l : list A) : list A :=
  if 0 <=? limit then take (Z.to_nat limit) l
  else take (length l - Z.to_nat (- limit))%nat l.

(** ** HTTP messages (httpx) *)

Record Request := {
  rq_method : string;
  rq_url : string;
  rq_headers : gmap string string;
  rq_kwargs : kwargs;
}.

(** [headers_get] is [response.headers.get]; httpx matches names without
    regard to case, which is why it is kept as a function. *)
Record Response := {
  status_code : Z;
  headers_get : string -> option string;
  text : string;
}.

(** ** Exceptions and results *)

Inductive exn :=
| ValueError (msg : string)
| RuntimeError (msg : string)
| KeyError (msg : string)
| HTTPStatusError (response : Response)
| LibraryError (origin : string) (msg : string).

Inductive outcome (A : Type) :=
| Ok (a : A)
| Raise (e : exn).
Arguments Ok {A} a.
Arguments Raise {A} e.

(** ** config.py *)

Record SecretRef := {
  sr_env : option string;
  sr_value : option string;
  sr_key_vault_secret_uri : option string;
}.

Definition key_vault_msg : string :=
  "Key Vault secret resolution is not implemented in SecretRef.resolve(). " +:+
  "Fetch the secret via managed identity before invoking authentication.".

(** [SecretRef.resolve], reading the process environment [environ]. *)
Definition resolve (environ : gmap string string) (self : SecretRef) : outcome string :=
  match sr_env self with
  | Some ((String _ _) as name) =>
      match environ !! name with
      | Some ((String _ _) as env_value) => Ok env_value
      | _ => Raise (ValueError ("Environment variable " +:+ name +:+ " is not set"))
      end
  | _ =>
      match sr_value self with
      | Some ((String _ _) as v) => Ok v
      | _ =>
          if truthy_str (sr_key_vault_secret_uri self)
          then Raise (ValueError key_vault_msg)
          else Raise (ValueError "No secret reference provided for resolution")
      end
  end.

Record ClientSecretAuth := {
  cs_client_id : string;
  cs_client_secret : SecretRef;
  cs_authority_host : string;
}.

Record CertificateAuth := {
  ce_client_id : string;
  ce_certificate_path : string;
  ce_certificate_password : option SecretRef;
  ce_authority_host : string;
}.

Record ManagedIdentityAuth := {
  mi_client_id : option string;
}.

(** [AuthConfig = Union[ClientSecretAuth, CertificateAuth, ManagedIdentityAuth]].
    [OtherAuth] stands for an object of none of the three classes, which only
    a configuration built without validation can hold; it is what reaches the
    final [raise ValueError] of [acquire_token]. *)
Inductive AuthConfig :=
| ClientSecret (a : ClientSecretAuth)
| Certificate (a : CertificateAuth)
| ManagedIdentity (a : ManagedIdentityAuth)
| OtherAuth.

Record TenantConfig := {
  tc_tenant_id : string;
  tc_display_name : option string;
  tc_auth : AuthConfig;
  tc_default_scopes : list string;
  tc_graph_base_url : string;
  tc_required_application_roles : list string;
  tc_required_delegated_permissions : list string;
}.

(** The [default_scopes] field validator. *)
Definition ensure_scopes (value : list string) : outcome (list string) :=
  match value with
  | [] => Raise (ValueError "At least one scope must be provided per tenant")
  | _ => Ok value
  end.

(** ** audit.py *)

Record AuditEvent := {
  ev_timestamp : string;
  ev_level : string;
  ev_message : string;
  ev_tenant_id : pyval;
  ev_correlation_id : pyval;
  ev_extra : kwargs;
}.

(** [collections.deque(maxlen=...)], leftmost element first. *)
Record InMemoryAuditStore := {
  maxlen : nat;
  _events : list AuditEvent;
}.

(** [deque(maxlen=max_events)] refuses a negative bound. *)
Definition InMemoryAuditStore_init (max_events : Z) : outcome InMemoryAuditStore :=
  if max_events <? 0 then Raise (ValueError "maxlen must be non-negative")
  else Ok {| maxlen := Z.to_nat max_events; _events := [] |}.

(** [deque.appendleft] on a bounded deque: the new item goes to the left end
    and whatever no longer fits is discarded from the right end. *)
Definition appendleft (event : AuditEvent) (d : InMemoryAuditStore) : InMemoryAuditStore :=
  {| maxlen := maxlen d; _events := take (maxlen d) (event :: _events d) |}.

Definition store_append (self : InMemoryAuditStore) (event : AuditEvent) : InMemoryAuditStore :=
  appendleft event self.

Definition store_list (self : InMemoryAuditStore) (limit : Z) : list AuditEvent :=
  slice_to limit (_events self).

(** Appending a sequence of events, first to last. *)
Definition store_appends (self : InMemoryAuditStore) (events : list AuditEvent)
  : InMemoryAuditStore :=
  fold_left store_append events self.

(** Level numbers and names of the [logging] module, for the three levels the
    logger is called with. *)
Inductive Level := INFO | WARNING | ERROR.

Definition level_no (l : Level) : Z :=
  match l with INFO => 20 | WARNING => 30 | ERROR => 40 end.

Definition getLevelName (l : Level) : string :=
  match l with INFO => "INFO" | WARNING => "WARNING" | ERROR => "ERROR" end.

(** One call [self.logger.log(level, message, extra={"extra": kwargs})]. *)
Record LogCall := {
  lc_level : Level;
  lc_message : string;
  lc_extra : kwargs;
}.

(** ** auth.py: what MSAL sees *)

(** The [client_credential] argument: the resolved secret, or the dictionary
    [{"private_key": ..., "thumbprint": None, "passphrase": ...}]. *)
Inductive Credential :=
| SecretCredential (secret : string)
| CertificateCredential (private_key : string) (passphrase : option string).

Record ConfidentialClientApplication := {
  app_client_id : string;
  app_client_credential : Credential;
  app_authority : string;
}.

(** ** The outside world *)

(** What the libraries and the platform answer.  Calls that can be repeated
    are indexed by how many calls of the same kind came before, so that the
    answers may change from one call to the next.  The token dictionaries of
    MSAL are kept to their string-valued entries ([_extract_token] is
    annotated to return [str]). *)
Record Externals := {
  (** [os.environ] *)
  environ : gmap string string;
  (** [float(s)]; [None] is [ValueError] *)
  float : string -> option pyfloat;
  (** [json.dumps] of a token result *)
  json_dumps : option (gmap string string) -> string;
  (** reading a file in binary mode: the bytes, or the text of the [OSError] *)
  read_bytes : string -> string + string;
  (** [app.acquire_token_silent(scopes, account=None)] *)
  acquire_token_silent :
    nat -> ConfidentialClientApplication -> list string ->
    outcome (option (gmap string string));
  (** [app.acquire_token_for_client(scopes=scopes)] *)
  acquire_token_for_client :
    nat -> ConfidentialClientApplication -> list string ->
    outcome (gmap string string);
  (** the [token] of [ManagedIdentityCredential(client_id=...).get_token], called
      with the scopes *)
  get_token : nat -> option string -> list string -> outcome string;
  (** [session.request(method, url, headers=headers, ...)] *)
  session_request : nat -> Request -> outcome Response;
  (** the exception [time.sleep] raises for a duration, if any *)
  sleep_error : pyfloat -> option exn;
  (** [str(uuid.uuid4())] *)
  uuid4 : nat -> string;
  (** [datetime.now(timezone.utc).isoformat()] *)
  utcnow : nat -> string;
}.

(** What the program has done so far.  [w_store] is the logger's [store]
    attribute ([None] when the logger was built without one).  The lists are
    histories, oldest entry first, of the kind a test double keeps: the calls
    of [logger.log], the scopes of each call of [acquire_token], the requests
    handed to the HTTP session and the durations slept.  [w_clock] and
    [w_uuids] count the clock reads and the UUIDs drawn.  The program has one
    audit logger, shared by the manager, the authenticator and the client;
    it is this one. *)
Record World := {
  w_store : option InMemoryAuditStore;
  w_log : list LogCall;
  w_clock : nat;
  w_acquired : list (list string);
  w_http : list Request;
  w_slept : list pyfloat;
  w_uuids : nat;
}.

(** A computation that may change the world and may raise. *)
Definition M (A : Type) : Type := World -> outcome A * World.

Definition ret {A} (a : A) : M A := fun w => (Ok a, w).

Definition raise {A} (e : exn) : M A := fun w => (Raise e, w).

Definition bind {A B} (m : M A) (k : A -> M B) : M B :=
  fun w =>
    match m w with
    | (Ok a, w') => k a w'
    | (Raise e, w') => (Raise e, w')
    end.

Definition lift {A} (r : outcome A) : M A := fun w => (r, w).

Notation "x <- m ;; k" := (bind m (fun x => k))
  (at level 100, m at next level, k at level 200, right associativity).
Notation "m >> k" := (bind m (fun _ => k))
  (at level 100, k at level 200, right associativity).

(** ** The program *)

Section Program.

Variable ext : Externals.

(** *** Effects on the world *)

Definition now_isoformat : M string := fun w =>
  (Ok (utcnow ext (w_clock w)),
   {| w_store := w_store w; w_log := w_log w; w_clock := S (w_clock w);
      w_acquired := w_acquired w; w_http := w_http w; w_slept := w_slept w;
      w_uuids := w_uuids w |}).

(** [if self.store: self.store.append(event)] *)
Definition store_event (event : AuditEvent) : M unit := fun w =>
  match w_store w with
  | Some store =>
      (Ok tt,
       {| w_store := Some (store_append store event); w_log := w_log w;
          w_clock := w_clock w; w_acquired := w_acquired w; w_http := w_http w;
          w_slept := w_slept w; w_uuids := w_uuids w |})
  | None => (Ok tt, w)
  end.

Definition logger_log (level : Level) (message : string) (kw : kwargs) : M unit := fun w =>
  (Ok tt,
   {| w_store := w_store w;
      w_log := w_log w ++ [{| lc_level := level; lc_message := message; lc_extra := kw |}];
      w_clock := w_clock w; w_acquired := w_acquired w; w_http := w_http w;
      w_slept := w_slept w; w_uuids := w_uuids w |}).

(** Entering [acquire_token]: the call is noted and its index returned. *)
Definition note_acquire (scopes : list string) : M nat := fun w =>
  (Ok (length (w_acquired w)),
   {| w_store := w_store w; w_log := w_log w; w_clock := w_clock w;
      w_acquired := w_acquired w ++ [scopes]; w_http := w_http w;
      w_slept := w_slept w; w_uuids := w_uuids w |}).

Definition http_send (rq : Request) : M Response := fun w =>
  (session_request ext (length (w_http w)) rq,
   {| w_store := w_store w; w_log := w_log w; w_clock := w_clock w;
      w_acquired := w_acquired w; w_http := w_http w ++ [rq];
      w_slept := w_slept w; w_uuids := w_uuids w |}).

Definition time_sleep (secs : pyfloat) : M unit := fun w =>
  match sleep_error ext secs with
  | Some e => (Raise e, w)
  | None =>
      (Ok tt,
       {| w_store := w_store w; w_log := w_log w; w_clock := w_clock w;
          w_acquired := w_acquired w; w_http := w_http w;
          w_slept := w_slept w ++ [secs]; w_uuids := w_uuids w |})
  end.

Definition uuid4_str : M string := fun w =>
  (Ok (uuid4 ext (w_uuids w)),
   {| w_store := w_store w; w_log := w_log w; w_clock := w_clock w;
      w_acquired := w_acquired w; w_http := w_http w; w_slept := w_slept w;
      w_uuids := S (w_uuids w) |}).

(** *** audit.py: JsonAuditLogger *)

Definition _build_event (level : Level) (message : string) (kw : kwargs) : M AuditEvent :=
  timestamp <- now_isoformat ;;
  ret {| ev_timestamp := timestamp;
         ev_level := getLevelName level;
         ev_message := message;
         ev_tenant_id := kwargs_get "tenant_id" kw;
         ev_correlation_id := kwargs_get "correlation_id" kw;
         ev_extra :=
           List.filter
             (fun kv => negb (String.eqb (fst kv) "tenant_id"
                              || String.eqb (fst kv) "correlation_id"))
             kw |}.

Definition _log (level : Level) (message : string) (kw : kwargs) : M unit :=
  event <- _build_event level message kw ;;
  store_event event >>
  logger_log level message kw.

Definition audit_info := _log INFO.
Definition audit_error := _log ERROR.
Definition audit_warning := _log WARNING.

(** *** auth.py: GraphAuthenticator *)

Record GraphAuthenticator := {
  ga_tenant_config : TenantConfig;
}.

(** [not result], for a result that is a dictionary or [None]. *)
Definition falsy_dict (result : option (gmap string string)) : bool :=
  match result with
  | None => true
  | Some d => bool_decide (d = ∅)
  end.

(** [if not result or "access_token" not in result: raise ...], then
    [return result["access_token"]]. *)
Definition _extract_token (result : option (gmap string string)) : outcome string :=
  match result with
  | Some d =>
      if falsy_dict result then
        Raise (RuntimeError ("Token acquisition failed: " +:+ json_dumps ext result))
      else
        match d !! "access_token" with
        | None =>
            Raise (RuntimeError ("Token acquisition failed: " +:+ json_dumps ext result))
        | Some token => Ok token
        end
  | None => Raise (RuntimeError ("Token acquisition failed: " +:+ json_dumps ext result))
  end.

Definition _load_certificate (self : GraphAuthenticator) (path : string) : outcome Credential :=
  let password :=
    match tc_auth (ga_tenant_config self) with
    | Certificate auth_config =>
        match ce_certificate_password auth_config with
        | Some ref =>
            match resolve (environ ext) ref with
            | Ok p => Ok (Some p)
            | Raise e => Raise e
            end
        | None => Ok None
        end
    | _ => Ok None
    end in
  match password with
  | Raise e => Raise e
  | Ok password =>
      match read_bytes ext path with
      | inl certificate_bytes => Ok (CertificateCredential certificate_bytes password)
      | inr exc =>
          Raise (RuntimeError ("Failed to read certificate at " +:+ path +:+ ": " +:+ exc))
      end
  end.

Definition acquire_token (self : GraphAuthenticator) (scopes : list string) : M string :=
  n <- note_acquire scopes ;;
  let tenant_config := ga_tenant_config self in
  match tc_auth tenant_config with
  | ClientSecret auth_config =>
      secret <- lift (resolve (environ ext) (cs_client_secret auth_config)) ;;
      let app :=
        {| app_client_id := cs_client_id auth_config;
           app_client_credential := SecretCredential secret;
           app_authority :=
             cs_authority_host auth_config +:+ "/" +:+ tc_tenant_id tenant_config |} in
      result <- lift (acquire_token_silent ext n app scopes) ;;
      result <- (if falsy_dict result
                 then (r <- lift (acquire_token_for_client ext n app scopes) ;; ret (Some r))
                 else ret result) ;;
      token <- lift (_extract_token result) ;;
      audit_info "acquired_app_token"
        [("tenant_id", PStr (tc_tenant_id tenant_config));
         ("auth_type", PStr "client_secret")] >>
      ret token
  | Certificate auth_config =>
      certificate <- lift (_load_certificate self (ce_certificate_path auth_config)) ;;
      let app :=
        {| app_client_id := ce_client_id auth_config;
           app_client_credential := certificate;
           app_authority :=
             ce_authority_host auth_config +:+ "/" +:+ tc_tenant_id tenant_config |} in
      result <- lift (acquire_token_silent ext n app scopes) ;;
      result <- (if falsy_dict result
                 then (r <- lift (acquire_token_for_client ext n app scopes) ;; ret (Some r))
                 else ret result) ;;
      token <- lift (_extract_token result) ;;
      audit_info "acquired_app_token"
        [("tenant_id", PStr (tc_tenant_id tenant_config));
         ("auth_type", PStr "certificate")] >>
      ret token
  | ManagedIdentity auth_config =>
      token <- lift (get_token ext n (mi_client_id auth_config) scopes) ;;
      audit_info "acquired_app_token"
        [("tenant_id", PStr (tc_tenant_id tenant_config));
         ("auth_type", PStr "managed_identity")] >>
      ret token
  | OtherAuth => raise (ValueError "Unsupported authentication configuration")
  end.

(** *** graph_client.py: GraphClient *)

Record GraphClient := {
  gc_tenant_config : TenantConfig;
  gc_authenticator : GraphAuthenticator;
  gc_timeout : Q;
  gc_max_retries : Z;
}.

Definition _auth_header (self : GraphClient) (scopes : list string) : M (gmap string string) :=
  token <- acquire_token (gc_authenticator self) scopes ;;
  ret {[ "Authorization" := "Bearer " +:+ token ]}.

Definition _get_retry_after_seconds (response : Response) : option pyfloat :=
  match headers_get response "Retry-After" with
  | None => None
  | Some retry_after => float ext retry_after
  end.

(** [status_code in (429, 503, 504)] *)
Definition throttled (status : Z) : bool :=
  (status =? 429) || (status =? 503) || (status =? 504).

(** [x or backoff], for [x] an [Optional[float]]. *)
Definition or_backoff (x : option pyfloat) (backoff : Q) : pyfloat :=
  match x with
  | Some f => if truthy_float f then f else Fin backoff
  | None => Fin backoff
  end.

(** [min(a, b)] keeps its first argument unless the second is smaller. *)
Definition py_min (a b : Q) : Q := if Qle_bool a b then a else b.

(** httpx's [Response.raise_for_status]: returns for a 2xx status and raises
    [HTTPStatusError], which carries the response, for any other. *)
Definition raise_for_status (response : Response) : M unit :=
  if (200 <=? status_code response) && (status_code response <=? 299)
  then ret tt
  else raise (HTTPStatusError response).

(** The [for attempt in range(1, self.max_retries + 2)] loop of [request],
    with [n] iterations left, and the [raise] that follows it. *)
Fixpoint request_loop (self : GraphClient) (method url : string)
    (headers : gmap string string) (kw : kwargs)
    (n : nat) (attempt : Z) (backoff : Q) : M Response :=
  match n with
  | O => raise (RuntimeError "Maximum retry attempts exceeded for Graph request")
  | S n' =>
      response <- http_send {| rq_method := method; rq_url := url;
                               rq_headers := headers; rq_kwargs := kw |} ;;
      if throttled (status_code response) then
        let retry_after := or_backoff (_get_retry_after_seconds response) backoff in
        audit_warning "graph_throttled"
          [("tenant_id", PStr (tc_tenant_id (gc_tenant_config self)));
           ("status", PInt (status_code response));
           ("retry_after", PFloat retry_after);
           ("attempt", PInt attempt)] >>
        time_sleep retry_after >>
        request_loop self method url headers kw n' (attempt + 1) (py_min (backoff * 2) 30)
      else
        (if 400 <=? status_code response then
           audit_error "graph_request_failed"
             [("tenant_id", PStr (tc_tenant_id (gc_tenant_config self)));
              ("status", PInt (status_code response));
              ("url", PStr url);
              ("body", PStr (text response))] >>
           raise_for_status response
         else ret tt) >>
        audit_info "graph_request_succeeded"
          [("tenant_id", PStr (tc_tenant_id (gc_tenant_config self)));
           ("status", PInt (status_code response));
           ("url", PStr url)] >>
        ret response
  end.

(** [scopes or self.tenant_config.default_scopes] *)
Definition effective_scopes (self : GraphClient) (scopes : option (list string)) : list string :=
  match scopes with
  | Some ((_ :: _) as given) => given
  | _ => tc_default_scopes (gc_tenant_config self)
  end.

(** [GraphClient.request].  [headers] is the [headers] entry of the keyword
    arguments ([None] when the caller passed none) and [kw] the remaining
    keyword arguments.  [headers.update] is a union in which the bearer
    header wins; the token is acquired here, once, and the loop is entered
    with the merged headers. *)
Definition request (self : GraphClient) (method url : string)
    (scopes : option (list string)) (headers : option (gmap string string))
    (kw : kwargs) : M Response :=
  let scopes := effective_scopes self scopes in
  let headers := default ∅ headers in
  auth_header <- _auth_header self scopes ;;
  let headers := auth_header ∪ headers in
  request_loop self method url headers kw (Z.to_nat (gc_max_retries self + 1)) 1 1%Q.

(** *** operations.py and tenant_manager.py *)

Record TenantExecutionContext := {
  ctx_tenant_id : string;
  ctx_graph : GraphClient;
}.

Record TenantOperations := {
  context : TenantExecutionContext;
}.

Record TenantManager := {
  _tenant_cache : gmap string TenantConfig;
}.

Definition get_tenant (self : TenantManager) (tenant_id : string) : outcome TenantConfig :=
  match _tenant_cache self !! tenant_id with
  | Some tenant => Ok tenant
  | None => Raise (KeyError ("Tenant " +:+ tenant_id +:+ " is not configured"))
  end.

Definition validate_permissions (tenant : TenantConfig) : M unit :=
  audit_info "tenant_validated"
    [("tenant_id", PStr (tc_tenant_id tenant));
     ("required_app_roles", PList (tc_required_application_roles tenant));
     ("required_delegated_permissions", PList (tc_required_delegated_permissions tenant))].

Definition with_context (self : TenantManager) (tenant_id : string) : M TenantExecutionContext :=
  tenant <- lift (get_tenant self tenant_id) ;;
  validate_permissions tenant >>
  let authenticator := {| ga_tenant_config := tenant |} in
  let graph_client :=
    {| gc_tenant_config := tenant; gc_authenticator := authenticator;
       gc_timeout := 30%Q; gc_max_retries := 3 |} in
  ret {| ctx_tenant_id := tc_tenant_id tenant; ctx_graph := graph_client |}.

(** [correlation_id or str(uuid.uuid4())] *)
Definition or_uuid4 (correlation_id : option string) : M string :=
  match correlation_id with
  | Some ((String _ _) as given) => ret given
  | _ => uuid4_str
  end.

Definition run_operation {A} (self : TenantManager) (tenant_id : string)
    (operation : TenantOperations -> M A) (correlation_id : option string) : M A :=
  correlation_id <- or_uuid4 correlation_id ;;
  context <- with_context self tenant_id ;;
  audit_info "operation_started"
    [("tenant_id", PStr tenant_id); ("correlation_id", PStr correlation_id)] >>
  let ops := {| context := context |} in
  result <- operation ops ;;
  audit_info "operation_completed"
    [("tenant_id", PStr tenant_id); ("correlation_id", PStr correlation_id)] >>
  ret result.

End Program.

(** ** The program, continued: the rest of the client and of the manager *)

Section Facade.

Variable ext : Externals.

(** [GraphClient.get]: [scopes] and [headers] are the entries of those names
    among the keyword arguments, [kw] the others, as for [request]. *)
Definition get (self : GraphClient) (path : string)
    (scopes : option (list string)) (headers : option (gmap string string))
    (kw : kwargs) : M Response :=
  let url := tc_graph_base_url (gc_tenant_config self) +:+ path in
  request ext self "GET" url scopes headers kw.


Record ControlPlaneConfig := {
  tenants : list TenantConfig;
}.

(** [TenantManager.__init__]: the dictionary comprehension over
    [config.tenants], in which a later tenant replaces an earlier one of the
    same id. *)
Definition TenantManager_init (config : ControlPlaneConfig) : TenantManager :=
  {| _tenant_cache :=
       fold_left (fun cache tenant => <[ tc_tenant_id tenant := tenant ]> cache)
         (tenants config) ∅ |}.

(** An [Optional[str]] as a keyword-argument value. *)
Definition optional_str (o : option string) : pyval :=
  match o with
  | Some s => PStr s
  | None => PNone
  end.

(** [onboard_tenant] and [offboard_tenant] change the manager's cache in
    place; here they return the manager as it is after the call. *)
Definition onboard_tenant (self : TenantManager) (tenant : TenantConfig) : M TenantManager :=
  let self := {| _tenant_cache := <[ tc_tenant_id tenant := tenant ]> (_tenant_cache self) |} in
  audit_info ext "tenant_onboarded"
    [("tenant_id", PStr (tc_tenant_id tenant));
     ("display_name", optional_str (tc_display_name tenant))] >>
  ret self.

Definition offboard_tenant (self : TenantManager) (tenant_id : string) : M TenantManager :=
  let self := {| _tenant_cache := delete tenant_id (_tenant_cache self) |} in
  audit_info ext "tenant_offboarded" [("tenant_id", PStr tenant_id)] >>
  ret self.

End Facade.

(** ** webapp.py: the limit of the audit views *)

(** The [limit] both audit views compute from the query string:
    [int(limit_param) if limit_param else 100], and 100 again when [int]
    raises [ValueError].  [int] is the builtin, [None] standing for the
    exception. *)
Definition audit_limit (int : string -> option Z) (limit_param : option string) : Z :=
  match limit_param with
  | Some ((String _ _) as given) =>
      match int given with
      | Some limit => limit
      | None => 100
      end
  | _ => 100
  end.

(** [audit_store.list(limit=limit)] as the views call it. *)
Definition audit_view (int : string -> option Z) (audit_store : InMemoryAuditStore)
    (limit_param : option string) : list AuditEvent :=
  store_list audit_store (audit_limit int limit_param).

(** ** Vocabulary of the statements *)

(** The backoff value in force at the attempt of index [i] (counting from 0). *)
Definition backoff_at (i : nat) : Q :=
  Nat.iter i (fun backoff => py_min (backoff * 2) 30) 1%Q.

(** The entries a history gained since it had [before] entries. *)
Definition since {A} (before : nat) (history : list A) : list A := drop before history.

(** The request an attempt sends, [headers] being the merged headers. *)
Definition issued (method url : string) (headers : gmap string string) (kw : kwargs)
  : Request :=
  {| rq_method := method; rq_url := url; rq_headers := headers; rq_kwargs := kw |}.

(** The wait computed for a throttled response under a given backoff. *)
Definition wait_for (ext : Externals) (response : Response) (backoff : Q) : pyfloat :=
  or_backoff (_get_retry_after_seconds ext response) backoff.

(** The three events of the dispatcher. *)
Definition graph_throttled (self : GraphClient) (response : Response)
    (retry_after : pyfloat) (attempt : Z) : LogCall :=
  {| lc_level := WARNING;
     lc_message := "graph_throttled";
     lc_extra :=
       [("tenant_id", PStr (tc_tenant_id (gc_tenant_config self)));
        ("status", PInt (status_code response));
        ("retry_after", PFloat retry_after);
        ("attempt", PInt attempt)] |}.

Definition graph_request_failed (self : GraphClient) (url : string) (response : Response)
  : LogCall :=
  {| lc_level := ERROR;
     lc_message := "graph_request_failed";
     lc_extra :=
       [("tenant_id", PStr (tc_tenant_id (gc_tenant_config self)));
        ("status", PInt (status_code response));
        ("url", PStr url);
        ("body", PStr (text response))] |}.

Definition graph_request_succeeded (self : GraphClient) (url : string) (response : Response)
  : LogCall :=
  {| lc_level := INFO;
     lc_message := "graph_request_succeeded";
     lc_extra :=
       [("tenant_id", PStr (tc_tenant_id (gc_tenant_config self)));
        ("status", PInt (status_code response));
        ("url", PStr url)] |}.

(** The MSAL application [acquire_token] builds for the two confidential
    variants ([None] for the others). *)
Definition confidential_app (ext : Externals) (self : GraphAuthenticator)
  : outcome (option ConfidentialClientApplication) :=
  let tenant_config := ga_tenant_config self in
  match tc_auth tenant_config with
  | ClientSecret a =>
      match resolve (environ ext) (cs_client_secret a) with
      | Ok secret =>
          Ok (Some {| app_client_id := cs_client_id a;
                      app_client_credential := SecretCredential secret;
                      app_authority :=
                        cs_authority_host a +:+ "/" +:+ tc_tenant_id tenant_config |})
      | Raise e => Raise e
      end
  | Certificate a =>
      match _load_certificate ext self (ce_certificate_path a) with
      | Ok certificate =>
          Ok (Some {| app_client_id := ce_client_id a;
                      app_client_credential := certificate;
                      app_authority :=
                        ce_authority_host a +:+ "/" +:+ tc_tenant_id tenant_config |})
      | Raise e => Raise e
      end
  | _ => Ok None
  end.

(** What the silent acquisition, then the client-credentials exchange when the
    silent one yields nothing, hand to [_extract_token]. *)
Definition confidential_result (ext : Externals) (n : nat)
    (app : ConfidentialClientApplication) (scopes : list string)
  : outcome (option (gmap string string)) :=
  match acquire_token_silent ext n app scopes with
  | Ok result =>
      if falsy_dict result then
        match acquire_token_for_client ext n app scopes with
        | Ok r => Ok (Some r)
        | Raise e => Raise e
        end
      else Ok result
  | Raise e => Raise e
  end.

(** ** Test doubles for the scenarios *)

Fixpoint digits_value (s : string) (acc : Z) : option Z :=
  match s with
  | EmptyString => Some acc
  | String c s' =>
      let d := Z.of_nat (Ascii.nat_of_ascii c) in
      if (48 <=? d) && (d <=? 57) then digits_value s' (acc * 10 + (d - 48)) else None
  end.

(** [float] on plain decimal numerals such as [2] or [120]; these are the
    only header values the scenarios use. *)
Definition decimal_float (s : string) : option pyfloat :=
  match s with
  | EmptyString => None
  | _ =>
      match digits_value s 0 with
      | Some z => Some (Fin (inject_Z z))
      | None => None
      end
  end.

(** [time.sleep] refusing NaN and negative durations. *)
Definition mock_sleep_error (secs : pyfloat) : option exn :=
  match secs with
  | Fin q =>
      if Qle_bool 0 q then None
      else Some (ValueError "sleep length must be non-negative")
  | Inf _ => Some (LibraryError "time" "timestamp too large to convert to C _PyTime_t")
  | NaN => Some (ValueError "Invalid value NaN (not a number)")
  end.

(** A world of mocks: the client-credentials exchange answers [tokens n] on
    its [n]-th use and the HTTP session answers [responses n] to its [n]-th
    call. *)
Definition mock_ext (tokens : nat -> gmap string string) (responses : nat -> Response)
  : Externals :=
  {| environ := {[ "GRAPH_CLIENT_SECRET" := "s3cret" ]};
     float := decimal_float;
     json_dumps := fun result => match result with None => "null" | Some _ => "{...}" end;
     read_bytes := fun _ => inr "[Errno 2] No such file or directory";
     acquire_token_silent := fun _ _ _ => Ok None;
     acquire_token_for_client := fun n _ _ => Ok (tokens n);
     get_token := fun n _ _ => Ok ("mi-token-" +:+ pretty n);
     session_request := fun n _ => Ok (responses n);
     sleep_error := mock_sleep_error;
     uuid4 := fun n => pretty n;
     utcnow := fun _ => "2024-01-01T00:00:00+00:00" |}.

Definition numbered_tokens (n : nat) : gmap string string :=
  {[ "access_token" := "token-" +:+ pretty n ]}.

Definition contoso : TenantConfig :=
  {| tc_tenant_id := "contoso";
     tc_display_name := Some "Contoso";
     tc_auth :=
       ClientSecret
         {| cs_client_id := "app-1";
            cs_client_secret :=
              {| sr_env := Some "GRAPH_CLIENT_SECRET"; sr_value := None;
                 sr_key_vault_secret_uri := None |};
            cs_authority_host := "https://login.microsoftonline.com" |};
     tc_default_scopes := ["https://graph.microsoft.com/.default"];
     tc_graph_base_url := "https://graph.microsoft.com";
     tc_required_application_roles := [];
     tc_required_delegated_permissions := [] |}.

Definition contoso_client : GraphClient :=
  {| gc_tenant_config := contoso;
     gc_authenticator := {| ga_tenant_config := contoso |};
     gc_timeout := 30%Q;
     gc_max_retries := 3 |}.

Definition contoso_manager : TenantManager :=
  {| _tenant_cache := {[ "contoso" := contoso ]} |}.

Definition users_url : string := "https://graph.microsoft.com/v1.0/users".

Definition fresh_world : World :=
  {| w_store := None; w_log := []; w_clock := 0%nat; w_acquired := [];
     w_http := []; w_slept := []; w_uuids := 0%nat |}.

Definition reply (status : Z) (retry_after : option string) (body : string) : Response :=
  {| status_code := status;
     headers_get := fun name => if decide (name = "Retry-After") then retry_after else None;
     text := body |}.

(** [429 (Retry-After: 2), 429 (no header), 200] *)
Definition throttled_twice (n : nat) : Response :=
  match n with
  | 0%nat => reply 429 (Some "2") "slow down"
  | 1%nat => reply 429 None "slow down"
  | _ => reply 200 None "{}"
  end.

Definition always_503 (n : nat) : Response := reply 503 None "unavailable".

Definition not_found (n : nat) : Response := reply 404 None "no such user".

(** What an execution added to the four histories. *)
Record Delta := {
  d_log : list LogCall;
  d_acquired : list (list string);
  d_http : list Request;
  d_slept : list pyfloat;
}.

Definition grows (w w' : World) (d : Delta) : Prop :=
  w_log w' = w_log w ++ d_log d /\
  w_acquired w' = w_acquired w ++ d_acquired d /\
  w_http w' = w_http w ++ d_http d /\
  w_slept w' = w_slept w ++ d_slept d.

Definition delta_app (d1 d2 : Delta) : Delta :=
  {| d_log := d_log d1 ++ d_log d2;
     d_acquired := d_acquired d1 ++ d_acquired d2;
     d_http := d_http d1 ++ d_http d2;
     d_slept := d_slept d1 ++ d_slept d2 |}.

Definition logged (calls : list LogCall) : Delta :=
  {| d_log := calls; d_acquired := []; d_http := []; d_slept := [] |}.

(** The error raised when the attempt budget is spent. *)
Definition retry_exhausted : exn :=
  RuntimeError "Maximum retry attempts exceeded for Graph request".

(** The empty access token. *)
Definition empty_token (n : nat) : gmap string string := {[ "access_token" := "" ]}.

(** The [auth_type] tag of the [acquired_app_token] event per variant. *)
Definition auth_type_name (a : AuthConfig) : string :=
  match a with
  | ClientSecret _ => "client_secret"
  | Certificate _ => "certificate"
  | ManagedIdentity _ => "managed_identity"
  | OtherAuth => ""
  end.

Definition acquired_app_token (self : GraphAuthenticator) : LogCall :=
  {| lc_level := INFO;
     lc_message := "acquired_app_token";
     lc_extra :=
       [("tenant_id", PStr (tc_tenant_id (ga_tenant_config self)));
        ("auth_type", PStr (auth_type_name (tc_auth (ga_tenant_config self))))] |}.

(** What the [n]-th call of [acquire_token] returns or raises, as a function
    of what the libraries answer. *)
Definition token_outcome (ext : Externals) (self : GraphAuthenticator)
    (scopes : list string) (n : nat) : outcome string :=
  match tc_auth (ga_tenant_config self) with
  | ManagedIdentity a => get_token ext n (mi_client_id a) scopes
  | OtherAuth => Raise (ValueError "Unsupported authentication configuration")
  | _ =>
      match confidential_app ext self with
      | Ok (Some app) =>
          match confidential_result ext n app scopes with
          | Ok result => _extract_token ext result
          | Raise e => Raise e
          end
      | Ok None => Raise (ValueError "Unsupported authentication configuration")
      | Raise e => Raise e
      end
  end.

(** The headers [request] sends: the bearer header laid over the caller's. *)
Definition merged_headers (token : string) (headers : option (gmap string string))
  : gmap string string :=
  {[ "Authorization" := "Bearer " +:+ token ]} ∪ default ∅ headers.

(** The token [request] obtains, or the exception its acquisition raises. *)
Definition request_token (ext : Externals) (self : GraphClient)
    (scopes : option (list string)) (w : World) : outcome string :=
  token_outcome ext (gc_authenticator self) (effective_scopes self scopes)
    (length (w_acquired w)).

(** The attempt budget. *)
Definition budget (self : GraphClient) : nat := Z.to_nat (gc_max_retries self + 1).

Definition ok_200 (n : nat) : Response := reply 200 None "{}".

(** The three events of the orchestrator. *)
Definition tenant_validated (tenant : TenantConfig) : LogCall :=
  {| lc_level := INFO;
     lc_message := "tenant_validated";
     lc_extra :=
       [("tenant_id", PStr (tc_tenant_id tenant));
        ("required_app_roles", PList (tc_required_application_roles tenant));
        ("required_delegated_permissions",
         PList (tc_required_delegated_permissions tenant))] |}.

Definition operation_started (tenant_id correlation_id : string) : LogCall :=
  {| lc_level := INFO;
     lc_message := "operation_started";
     lc_extra := [("tenant_id", PStr tenant_id); ("correlation_id", PStr correlation_id)] |}.

Definition operation_completed (tenant_id correlation_id : string) : LogCall :=
  {| lc_level := INFO;
     lc_message := "operation_completed";
     lc_extra := [("tenant_id", PStr tenant_id); ("correlation_id", PStr correlation_id)] |}.

(** The context [with_context] builds for a tenant. *)
Definition context_of (tenant : TenantConfig) : TenantExecutionContext :=
  {| ctx_tenant_id := tc_tenant_id tenant;
     ctx_graph :=
       {| gc_tenant_config := tenant;
          gc_authenticator := {| ga_tenant_config := tenant |};
          gc_timeout := 30%Q;
          gc_max_retries := 3 |} |}.

(** An operation that does nothing. *)
Definition no_operation (ops : TenantOperations) : M unit := ret tt.

(** A world in which one UUID has been drawn. *)
Definition later_world : World :=
  {| w_store := None; w_log := []; w_clock := 0%nat; w_acquired := [];
     w_http := []; w_slept := []; w_uuids := 1%nat |}.

(** An event with a given message, for the examples. *)
Definition sample_event (message : string) : AuditEvent :=
  {| ev_timestamp := "2024-01-01T00:00:00+00:00";
     ev_level := "INFO";
     ev_message := message;
     ev_tenant_id := PStr "contoso";
     ev_correlation_id := PNone;
     ev_extra := [] |}.

(** A fresh world whose logger has an empty store of capacity 2. *)
Definition world_with_store : World :=
  {| w_store := Some {| maxlen := 2; _events := [] |}; w_log := [];
     w_clock := 0%nat; w_acquired := []; w_http := []; w_slept := [];
     w_uuids := 0%nat |}.

(** A tenant that authenticates with a certificate at a path the mocks
    cannot read, and one whose client secret names an unset variable. *)
Definition fabrikam : TenantConfig :=
  {| tc_tenant_id := "fabrikam";
     tc_display_name := None;
     tc_auth :=
       Certificate
         {| ce_client_id := "app-2";
            ce_certificate_path := "/etc/certs/fabrikam.pem";
            ce_certificate_password := None;
            ce_authority_host := "https://login.microsoftonline.com" |};
     tc_default_scopes := ["https://graph.microsoft.com/.default"];
     tc_graph_base_url := "https://graph.microsoft.com";
     tc_required_application_roles := ["User.Read.All"];
     tc_required_delegated_permissions := [] |}.

Definition tailspin : TenantConfig :=
  {| tc_tenant_id := "tailspin";
     tc_display_name := Some "Tailspin";
     tc_auth :=
       ClientSecret
         {| cs_client_id := "app-3";
            cs_client_secret :=
              {| sr_env := Some "TAILSPIN_SECRET"; sr_value := None;
                 sr_key_vault_secret_uri := None |};
            cs_authority_host := "https://login.microsoftonline.com" |};
     tc_default_scopes := ["https://graph.microsoft.com/.default"];
     tc_graph_base_url := "https://graph.microsoft.com";
     tc_required_application_roles := [];
     tc_required_delegated_permissions := [] |}.

(** The mocks, with a silent acquisition that finds a cached token. *)
Definition cached_ext : Externals :=
  {| environ := environ (mock_ext empty_token ok_200);
     float := float (mock_ext empty_token ok_200);
     json_dumps := json_dumps (mock_ext empty_token ok_200);
     read_bytes := read_bytes (mock_ext empty_token ok_200);
     acquire_token_silent := fun _ _ _ => Ok (Some {[ "access_token" := "cached" ]});
     acquire_token_for_client := fun _ _ _ => Raise (LibraryError "msal" "offline");
     get_token := get_token (mock_ext empty_token ok_200);
     session_request := session_request (mock_ext empty_token ok_200);
     sleep_error := sleep_error (mock_ext empty_token ok_200);
     uuid4 := uuid4 (mock_ext empty_token ok_200);
     utcnow := utcnow (mock_ext empty_token ok_200) |}.

(** The wait a logged call announces: the [retry_after] value of a
    [graph_throttled] event. *)
Definition logged_wait (call : LogCall) : option pyfloat :=
  if String.eqb (lc_message call) "graph_throttled" then
    match kwargs_get "retry_after" (lc_extra call) with
    | PFloat f => Some f
    | _ => None
    end
  else None.

Definition logged_waits (calls : list LogCall) : list pyfloat :=
  omap logged_wait calls.

(** What holds of an execution of the attempt loop that started in [w],
    ended with [r], added [d] to the histories and made [k] calls, each
    sending [rq]. *)
Definition accounted (ext : Externals) (self : GraphClient) (url : string)
    (rq : Request) (w : World) (r : outcome Response) (d : Delta) (k : nat) : Prop :=
  d_acquired d = [] /\
  d_http d = replicate k rq /\
  (length (d_slept d) <= k)%nat /\
  d_slept d `prefix_of` logged_waits (d_log d) /\
  (length (logged_waits (d_log d)) <= length (d_slept d) + 1)%nat /\
  (forall response,
      r = Ok response ->
      (0 < k)%nat /\
      session_request ext (length (w_http w) + k - 1) rq = Ok response /\
      throttled (status_code response) = false /\
      status_code response < 400 /\
      last (d_log d) = Some (graph_request_succeeded self url response)).

(** The mocks with another [float] and another HTTP session. *)
Definition custom_ext (parse : string -> option pyfloat)
    (session : nat -> Request -> outcome Response) : Externals :=
  {| environ := environ (mock_ext numbered_tokens ok_200);
     float := parse;
     json_dumps := json_dumps (mock_ext numbered_tokens ok_200);
     read_bytes := read_bytes (mock_ext numbered_tokens ok_200);
     acquire_token_silent := acquire_token_silent (mock_ext numbered_tokens ok_200);
     acquire_token_for_client := acquire_token_for_client (mock_ext numbered_tokens ok_200);
     get_token := get_token (mock_ext numbered_tokens ok_200);
     session_request := session;
     sleep_error := mock_sleep_error;
     uuid4 := uuid4 (mock_ext numbered_tokens ok_200);
     utcnow := utcnow (mock_ext numbered_tokens ok_200) |}.

(** A session that cannot connect. *)
Definition offline (n : nat) (rq : Request) : outcome Response :=
  Raise (LibraryError "httpx" "ConnectTimeout").

(** [float] that also reads [nan]. *)
Definition float_with_nan (s : string) : option pyfloat :=
  if decide (s = "nan") then Some NaN else decimal_float s.

(** [429 (Retry-After: 0)], then 200; and [503 (Retry-After: nan)] forever. *)
Definition zero_hint (n : nat) : Response :=
  match n with
  | 0%nat => reply 429 (Some "0") "slow down"
  | _ => reply 200 None "{}"
  end.

Definition nan_hint (n : nat) (rq : Request) : outcome Response :=
  Ok (reply 503 (Some "nan") "unavailable").

(** The sample client with a negative retry count. *)
Definition impatient_client : GraphClient :=
  {| gc_tenant_config := contoso;
     gc_authenticator := {| ga_tenant_config := contoso |};
     gc_timeout := 30%Q;
     gc_max_retries := -1 |}.

(** A client of the tenant whose secret cannot be resolved. *)
Definition tailspin_client : GraphClient :=
  {| gc_tenant_config := tailspin;
     gc_authenticator := {| ga_tenant_config := tailspin |};
     gc_timeout := 30%Q;
     gc_max_retries := 3 |}.

(** The events of onboarding and offboarding. *)
Definition tenant_onboarded (tenant : TenantConfig) : LogCall :=
  {| lc_level := INFO;
     lc_message := "tenant_onboarded";
     lc_extra :=
       [("tenant_id", PStr (tc_tenant_id tenant));
        ("display_name", optional_str (tc_display_name tenant))] |}.

Definition tenant_offboarded (tenant_id : string) : LogCall :=
  {| lc_level := INFO;
     lc_message := "tenant_offboarded";
     lc_extra := [("tenant_id", PStr tenant_id)] |}.

(** An operation that makes one GET through the context's client, the way
    [TenantOperations.list_users] starts. *)
Definition get_once (ext : Externals) (path : string) (ops : TenantOperations)
  : M Response :=
  get ext (ctx_graph (context ops)) path None None [].

(** A second configuration entry for the sample tenant's id. *)
Definition contoso_again : TenantConfig :=
  {| tc_tenant_id := "contoso";
     tc_display_name := Some "Contoso (new)";
     tc_auth := ManagedIdentity {| mi_client_id := None |};
     tc_default_scopes := ["https://graph.microsoft.com/.default"];
     tc_graph_base_url := "https://graph.microsoft.com";
     tc_required_application_roles := [];
     tc_required_delegated_permissions := [] |}.


(** * Verification *)

(** ** The audit ring buffer *)

Section RingBuffer.

Lemma take_app_take {A} (m : nat) (l k : list A) :
  take m (l ++ take m k) = take m (l ++ k).
Proof.
  rewrite !take_app, take_take. do 2 f_equal. apply Nat.min_l, Nat.le_sub_l.
Qed.

Lemma store_appends_maxlen (events : list AuditEvent) :
  forall store, maxlen (store_appends store events) = maxlen store.
Proof.
  induction events as [|e events IH]; intros store; [reflexivity|].
  cbn. unfold store_appends in IH. now rewrite IH.
Qed.

Lemma store_appends_events (events : list AuditEvent) :
  forall store,
    (length (_events store) <= maxlen store)%nat ->
    _events (store_appends store events)
    = take (maxlen store) (rev events ++ _events store).
Proof.
  induction events as [|e events IH]; intros store Hinv.
  - cbn. now rewrite take_ge.
  - change (store_appends store (e :: events))
      with (store_appends (store_append store e) events).
    rewrite IH; cbn [store_append appendleft maxlen _events].
    + rewrite take_app_take. cbn [rev]. now rewrite <- app_assoc.
    + rewrite length_take. apply Nat.le_min_l.
Qed.

Lemma slice_to_nat {A} (limit : nat) (l : list A) :
  slice_to (Z.of_nat limit) l = take limit l.
Proof.
  unfold slice_to. destruct (Z.leb_spec 0 (Z.of_nat limit)); [|lia].
  now rewrite Nat2Z.id.
Qed.

(** C7. A store built with capacity [C] never holds more than [C] events,
    whatever is appended to it, and [list(limit)] returns the appended events
    most recent first, cut to the capacity and to the limit; with capacity 3
    and events E1..E5 appended, [list(10)] is exactly [E5, E4, E3]. *)
Theorem audit_store_bounded_most_recent_first :
  (forall (capacity : nat) (events : list AuditEvent),
      exists empty,
        InMemoryAuditStore_init (Z.of_nat capacity) = Ok empty /\
        (length (_events (store_appends empty events)) <= capacity)%nat /\
        (forall limit : nat,
            store_list (store_appends empty events) (Z.of_nat limit)
            = take limit (take capacity (rev events)))) /\
  (forall E1 E2 E3 E4 E5 : AuditEvent,
      exists empty,
        InMemoryAuditStore_init 3 = Ok empty /\
        store_list (store_appends empty [E1; E2; E3; E4; E5]) 10 = [E5; E4; E3]).
Proof.
  split.
  - intros capacity events.
    exists {| maxlen := capacity; _events := [] |}.
    assert (Hev : _events (store_appends {| maxlen := capacity; _events := [] |} events)
                  = take capacity (rev events)).
    { rewrite store_appends_events; cbn [maxlen _events length]; [|lia].
      now rewrite app_nil_r. }
    repeat split.
    + unfold InMemoryAuditStore_init.
      destruct (Z.ltb_spec (Z.of_nat capacity) 0); [lia|].
      now rewrite Nat2Z.id.
    + rewrite Hev, length_take. lia.
    + intros limit. unfold store_list. now rewrite slice_to_nat, Hev.
  - intros E1 E2 E3 E4 E5. eexists. split; reflexivity.
Qed.

End RingBuffer.

(** ** Secret references *)

Section Secrets.

Lemma truthy_str_false (o : option string) :
  truthy_str o = false -> o = None \/ o = Some "".
Proof.
  destruct o as [[|c s]|]; cbn; intros H; auto; discriminate.
Qed.

(** C6, as the claim words its second part: a reference with only [value]
    set resolves to that value.  With the empty string as the value,
    [resolve] raises instead. *)
Lemma resolve_value_not_always_returned :
  ~ (forall (environ : gmap string string) (v : string),
        resolve environ
          {| sr_env := None; sr_value := Some v; sr_key_vault_secret_uri := None |}
        = Ok v).
Proof.
  intros H. specialize (H ∅ ""). cbn in H. discriminate.
Qed.

(** C6, amended.  With [env] naming (by a non-empty name) a variable that is
    unset or empty, [resolve] raises; with [env] absent or empty and [value] a
    non-empty string it returns exactly that value; with neither [env] nor
    [value] set it raises, whatever [key_vault_secret_uri] holds, and with a
    non-empty URI the error is the not-implemented one; it never returns the
    empty string. *)
Theorem resolve_cases :
  forall (environ : gmap string string) (self : SecretRef),
    (forall name,
        sr_env self = Some name -> name <> "" ->
        environ !! name = None \/ environ !! name = Some "" ->
        resolve environ self
        = Raise (ValueError ("Environment variable " +:+ name +:+ " is not set"))) /\
    (forall v,
        truthy_str (sr_env self) = false ->
        sr_value self = Some v -> v <> "" ->
        resolve environ self = Ok v) /\
    (sr_env self = None -> sr_value self = None ->
     (exists msg, resolve environ self = Raise (ValueError msg)) /\
     (truthy_str (sr_key_vault_secret_uri self) = true ->
      resolve environ self = Raise (ValueError key_vault_msg))) /\
    (forall v, resolve environ self = Ok v -> v <> "").
Proof.
  intros environ [e v k]; cbn [sr_env sr_value sr_key_vault_secret_uri].
  repeat split.
  - intros name -> Hname Hunset. unfold resolve; cbn.
    destruct name as [|c name]; [congruence|].
    now destruct Hunset as [-> | ->].
  - intros v0 He -> Hv0. unfold resolve; cbn.
    destruct v0 as [|c v0]; [congruence|].
    now destruct (truthy_str_false _ He) as [-> | ->].
  - subst. unfold resolve; cbn. destruct (truthy_str k); eauto.
  - subst. unfold resolve; cbn. now intros ->.
  - intros v0. unfold resolve; cbn.
    destruct e as [[|c name]|]; [| destruct (environ !! _) as [[|c' ev]|] |];
      destruct v as [[|c'' v]|]; try destruct (truthy_str k);
      intros [= <-]; discriminate.
Qed.

(** The cases of [resolve] on sample references. *)
Lemma resolve_cases_witness :
  resolve {[ "GRAPH_CLIENT_SECRET" := "s3cret" ]}
    {| sr_env := Some "MISSING"; sr_value := Some "inline";
       sr_key_vault_secret_uri := None |}
  = Raise (ValueError "Environment variable MISSING is not set") /\
  resolve ∅
    {| sr_env := None; sr_value := Some "inline"; sr_key_vault_secret_uri := None |}
  = Ok "inline" /\
  resolve ∅
    {| sr_env := None; sr_value := None;
       sr_key_vault_secret_uri := Some "https://vault.example/secrets/graph" |}
  = Raise (ValueError key_vault_msg) /\
  "s3cret" <> "".
Proof.
  split; [|split; [|split]].
  - apply (proj1 (resolve_cases {[ "GRAPH_CLIENT_SECRET" := "s3cret" ]}
                    {| sr_env := Some "MISSING"; sr_value := Some "inline";
                       sr_key_vault_secret_uri := None |}) "MISSING");
      [reflexivity | discriminate | left; reflexivity].
  - apply (proj1 (proj2 (resolve_cases ∅
                    {| sr_env := None; sr_value := Some "inline";
                       sr_key_vault_secret_uri := None |})) "inline");
      [reflexivity | reflexivity | discriminate].
  - apply (proj1 (proj2 (proj2 (resolve_cases ∅
                    {| sr_env := None; sr_value := None;
                       sr_key_vault_secret_uri :=
                         Some "https://vault.example/secrets/graph" |}))));
      reflexivity.
  - apply (proj2 (proj2 (proj2 (resolve_cases {[ "GRAPH_CLIENT_SECRET" := "s3cret" ]}
                    {| sr_env := Some "GRAPH_CLIENT_SECRET"; sr_value := None;
                       sr_key_vault_secret_uri := None |}))) "s3cret").
    reflexivity.
Defined.

End Secrets.

(** ** Running computations *)

Section Running.

Variable ext : Externals.

Lemma bind_ok {A B} (m : M A) (k : A -> M B) w a w' :
  m w = (Ok a, w') -> bind m k w = k a w'.
Proof. unfold bind. now intros ->. Qed.

Lemma bind_raise {A B} (m : M A) (k : A -> M B) w e w' :
  m w = (Raise e, w') -> bind m k w = (Raise e, w').
Proof. unfold bind. now intros ->. Qed.

Lemma grows_refl w : grows w w (logged []).
Proof. unfold grows; cbn. now rewrite !app_nil_r. Qed.

Lemma grows_trans w w1 w2 d1 d2 :
  grows w w1 d1 -> grows w1 w2 d2 -> grows w w2 (delta_app d1 d2).
Proof.
  intros (H1 & H2 & H3 & H4) (K1 & K2 & K3 & K4). unfold grows; cbn.
  rewrite K1, K2, K3, K4, H1, H2, H3, H4, <- !app_assoc. tauto.
Qed.

Lemma _log_run level message kw w :
  exists w',
    _log ext level message kw w = (Ok tt, w') /\
    grows w w' (logged [{| lc_level := level; lc_message := message; lc_extra := kw |}]) /\
    w_uuids w' = w_uuids w.
Proof.
  unfold _log, _build_event, bind, now_isoformat, store_event, logger_log, ret; cbn.
  destruct (w_store w); eexists; (split; [reflexivity|]);
    unfold grows; cbn; now rewrite !app_nil_r.
Qed.

Lemma http_send_run rq w :
  exists w',
    http_send ext rq w = (session_request ext (length (w_http w)) rq, w') /\
    grows w w' {| d_log := []; d_acquired := []; d_http := [rq]; d_slept := [] |} /\
    w_uuids w' = w_uuids w.
Proof.
  eexists; split; [reflexivity|]. unfold grows; cbn. now rewrite !app_nil_r.
Qed.

Lemma time_sleep_run secs w :
  sleep_error ext secs = None ->
  exists w',
    time_sleep ext secs w = (Ok tt, w') /\
    grows w w' {| d_log := []; d_acquired := []; d_http := []; d_slept := [secs] |} /\
    w_uuids w' = w_uuids w.
Proof.
  intros H. unfold time_sleep. rewrite H.
  eexists; split; [reflexivity|]. unfold grows; cbn. now rewrite !app_nil_r.
Qed.

Lemma time_sleep_raise secs e w :
  sleep_error ext secs = Some e -> time_sleep ext secs w = (Raise e, w).
Proof. intros H. unfold time_sleep. now rewrite H. Qed.

End Running.


(** ** Token acquisition *)

Section Authenticator.

Variable ext : Externals.

Ltac leaf :=
  eexists; split; [reflexivity|]; unfold grows; cbn; rewrite ?app_nil_r; auto.

(** [acquire_token] notes the call, returns what [token_outcome] says, and
    logs [acquired_app_token] exactly when it returns. *)
Lemma acquire_token_run self scopes w :
  exists w',
    acquire_token ext self scopes w
    = (token_outcome ext self scopes (length (w_acquired w)), w') /\
    grows w w'
      {| d_log := match token_outcome ext self scopes (length (w_acquired w)) with
                  | Ok _ => [acquired_app_token self]
                  | Raise _ => []
                  end;
         d_acquired := [scopes]; d_http := []; d_slept := [] |} /\
    w_uuids w' = w_uuids w.
Proof.
  unfold acquire_token, audit_info, token_outcome, confidential_app,
    confidential_result, acquired_app_token.
  unfold bind at 1. unfold note_acquire at 1. cbv beta iota.
  set (n := length (w_acquired w)).
  set (w0 := {| w_store := w_store w; w_log := w_log w; w_clock := w_clock w;
                w_acquired := w_acquired w ++ [scopes]; w_http := w_http w;
                w_slept := w_slept w; w_uuids := w_uuids w |}).
  assert (Hlog : forall kw (token : string),
             exists w',
               bind (_log ext INFO "acquired_app_token" kw) (fun _ => ret token) w0
               = (Ok token, w') /\
               grows w w'
                 {| d_log := [{| lc_level := INFO; lc_message := "acquired_app_token";
                                 lc_extra := kw |}];
                    d_acquired := [scopes]; d_http := []; d_slept := [] |} /\
               w_uuids w' = w_uuids w).
  { intros kw token.
    destruct (_log_run ext INFO "acquired_app_token" kw w0) as (w' & Hrun & Hg & Hu).
    exists w'. rewrite (bind_ok _ _ _ _ _ Hrun).
    split; [reflexivity|]. destruct Hg as (H1 & H2 & H3 & H4).
    unfold grows; cbn in *. rewrite H1, H2, H3, H4, Hu, ?app_nil_r. auto. }
  destruct (tc_auth (ga_tenant_config self)) as [a|a|a|]; cbn [auth_type_name].
  - unfold bind at 1, lift at 1.
    destruct (resolve _ _) as [secret|e]; [|leaf].
    unfold bind at 1, lift at 1.
    destruct (acquire_token_silent _ _ _ _) as [result|e]; [|leaf].
    unfold bind at 1.
    destruct (falsy_dict result).
    + unfold bind at 1, lift at 1.
      destruct (acquire_token_for_client _ _ _ _) as [r|e]; [|leaf].
      unfold ret at 1, bind at 1, lift at 1.
      destruct (_extract_token _ _) as [token|e]; [apply Hlog|leaf].
    + unfold ret at 1, bind at 1, lift at 1.
      destruct (_extract_token _ _) as [token|e]; [apply Hlog|leaf].
  - unfold bind at 1, lift at 1.
    destruct (_load_certificate _ _ _) as [certificate|e]; [|leaf].
    unfold bind at 1, lift at 1.
    destruct (acquire_token_silent _ _ _ _) as [result|e]; [|leaf].
    unfold bind at 1.
    destruct (falsy_dict result).
    + unfold bind at 1, lift at 1.
      destruct (acquire_token_for_client _ _ _ _) as [r|e]; [|leaf].
      unfold ret at 1, bind at 1, lift at 1.
      destruct (_extract_token _ _) as [token|e]; [apply Hlog|leaf].
    + unfold ret at 1, bind at 1, lift at 1.
      destruct (_extract_token _ _) as [token|e]; [apply Hlog|leaf].
  - unfold bind at 1, lift at 1.
    destruct (get_token _ _ _ _) as [token|e]; [apply Hlog|leaf].
  - unfold raise. leaf.
Qed.

Lemma _extract_token_lacking result :
  falsy_dict result = true \/ (exists d, result = Some d /\ d !! "access_token" = None) ->
  _extract_token ext result
  = Raise (RuntimeError ("Token acquisition failed: " +:+ json_dumps ext result)).
Proof.
  unfold _extract_token. intros [H | (d & -> & H)].
  - rewrite H. now destruct result.
  - rewrite H. now destruct (falsy_dict (Some d)).
Qed.

Lemma _extract_token_ok result token :
  _extract_token ext result = Ok token ->
  exists d, result = Some d /\ d !! "access_token" = Some token.
Proof.
  unfold _extract_token. destruct result as [d|]; [|discriminate].
  destruct (falsy_dict (Some d)); [discriminate|].
  destruct (d !! "access_token") as [t|] eqn:Hd; [|discriminate].
  intros [= <-]. eauto.
Qed.

Lemma _extract_token_present d token :
  d !! "access_token" = Some token -> _extract_token ext (Some d) = Ok token.
Proof.
  intros H. unfold _extract_token, falsy_dict. rewrite H.
  destruct (bool_decide_reflect (d = ∅)) as [-> | _]; [|reflexivity].
  now rewrite lookup_empty in H.
Qed.

End Authenticator.

Section TokenClaims.

(** C5, as stated: [acquire_token] never returns an empty string.  When the
    client-credentials exchange answers with an empty [access_token], the
    empty string is what [acquire_token] returns. *)
Lemma acquire_token_can_return_empty :
  fst (acquire_token (mock_ext empty_token not_found)
         {| ga_tenant_config := contoso |} (tc_default_scopes contoso) fresh_world)
  = Ok "".
Proof. vm_compute. reflexivity. Qed.

(** C5, amended.  For the two confidential variants [acquire_token] returns
    or raises exactly what [_extract_token] makes of the MSAL result: the
    [access_token] entry as it is when there is one, and otherwise a
    [RuntimeError] whose message carries the JSON text of the raw result; for
    a managed identity it returns the platform's token as it is.  Hence the
    token returned is non-empty whenever the libraries never hand out an empty
    one. *)
Theorem acquire_token_returns_library_token :
  forall (ext : Externals) (self : GraphAuthenticator) (scopes : list string) (w : World),
    (forall app result,
        confidential_app ext self = Ok (Some app) ->
        confidential_result ext (length (w_acquired w)) app scopes = Ok result ->
        fst (acquire_token ext self scopes w) = _extract_token ext result) /\
    (forall result,
        falsy_dict result = true \/
        (exists d, result = Some d /\ d !! "access_token" = None) ->
        _extract_token ext result
        = Raise (RuntimeError ("Token acquisition failed: " +:+ json_dumps ext result))) /\
    (forall d token,
        d !! "access_token" = Some token -> _extract_token ext (Some d) = Ok token) /\
    (forall a,
        tc_auth (ga_tenant_config self) = ManagedIdentity a ->
        fst (acquire_token ext self scopes w)
        = get_token ext (length (w_acquired w)) (mi_client_id a) scopes) /\
    ((forall n app sc d,
         acquire_token_silent ext n app sc = Ok (Some d) ->
         d !! "access_token" <> Some "") ->
     (forall n app sc d,
         acquire_token_for_client ext n app sc = Ok d ->
         d !! "access_token" <> Some "") ->
     (forall n client_id sc, get_token ext n client_id sc <> Ok "") ->
     forall token, fst (acquire_token ext self scopes w) = Ok token -> token <> "").
Proof.
  intros ext self scopes w.
  destruct (acquire_token_run ext self scopes w) as (w' & Hrun & _).
  rewrite Hrun; cbn [fst]. clear Hrun w'.
  set (n := length (w_acquired w)).
  split; [|split; [|split; [|split]]].
  - intros app result Happ Hres. unfold token_outcome. rewrite Happ, Hres.
    unfold confidential_app in Happ.
    destruct (tc_auth (ga_tenant_config self)); try discriminate; reflexivity.
  - apply _extract_token_lacking.
  - apply _extract_token_present.
  - intros a Ha. unfold token_outcome. now rewrite Ha.
  - intros Hsilent Hclient Hmi token. unfold token_outcome.
    assert (Hconf : match confidential_app ext self with
                    | Ok (Some app) =>
                        match confidential_result ext n app scopes with
                        | Ok result => _extract_token ext result
                        | Raise e => Raise e
                        end
                    | Ok None => Raise (ValueError "Unsupported authentication configuration")
                    | Raise e => Raise e
                    end = Ok token -> token <> "").
    { destruct (confidential_app ext self) as [[app|]|]; try discriminate.
      destruct (confidential_result ext n app scopes) as [result|] eqn:Hres;
        [|discriminate].
      intros Htok. apply _extract_token_ok in Htok as (d & -> & Hd).
      unfold confidential_result in Hres.
      destruct (acquire_token_silent ext n app scopes) as [silent|] eqn:Hs;
        [|discriminate].
      destruct (falsy_dict silent).
      - destruct (acquire_token_for_client ext n app scopes) as [r|] eqn:Hc;
          [|discriminate].
        injection Hres as ->. intros ->. exact (Hclient _ _ _ _ Hc Hd).
      - injection Hres as ->. intros ->. exact (Hsilent _ _ _ _ Hs Hd). }
    destruct (tc_auth (ga_tenant_config self)) as [a|a|a|]; try exact Hconf.
    + intros Htok ->. exact (Hmi _ _ _ Htok).
    + discriminate.
Qed.

(** With numbered, non-empty tokens from the exchange. *)
Lemma acquire_token_returns_library_token_witness :
  _extract_token (mock_ext numbered_tokens not_found) None
  = Raise (RuntimeError "Token acquisition failed: null") /\
  "token-0" <> "".
Proof.
  pose proof (acquire_token_returns_library_token
                (mock_ext numbered_tokens not_found)
                {| ga_tenant_config := contoso |} (tc_default_scopes contoso)
                fresh_world) as (_ & Hlack & _ & _ & Hne).
  split.
  - apply (Hlack None). left. reflexivity.
  - apply Hne.
    + intros n app sc d H. discriminate H.
    + intros n app sc d [= <-]. unfold numbered_tokens.
      rewrite lookup_singleton_eq. discriminate.
    + intros n client_id sc. discriminate.
    + vm_compute. reflexivity.
Defined.

End TokenClaims.

(** ** The dispatcher: one attempt at a time *)

Section Attempts.

Variable ext : Externals.
Variable self : GraphClient.
Variables method url : string.
Variable headers : gmap string string.
Variable kw : kwargs.

Let rq := issued method url headers kw.
Let loop := request_loop ext self method url headers kw.

(** The budget spent: the loop falls through to the final [raise]. *)
Lemma loop_exhausted attempt backoff w :
  loop 0%nat attempt backoff w = (Raise retry_exhausted, w).
Proof. reflexivity. Qed.

(** The transport raises: the exception leaves [request]. *)
Lemma loop_transport_raises n attempt backoff w e :
  session_request ext (length (w_http w)) rq = Raise e ->
  exists w',
    loop (S n) attempt backoff w = (Raise e, w') /\
    grows w w' {| d_log := []; d_acquired := []; d_http := [rq]; d_slept := [] |} /\
    w_uuids w' = w_uuids w.
Proof.
  intros Hresp. destruct (http_send_run ext rq w) as (w1 & H1 & G1 & U1).
  rewrite Hresp in H1. exists w1. split; [|split; [exact G1|]].
  - subst loop. cbn [request_loop]. fold rq. now rewrite (bind_raise _ _ _ _ _ H1).
  - exact U1.
Qed.

(** A throttled response whose wait can be slept: the event is logged, the
    wait is slept, and the loop goes on with one attempt less, the next
    attempt number and the doubled, capped backoff. *)
Lemma loop_throttled n attempt backoff w response :
  session_request ext (length (w_http w)) rq = Ok response ->
  throttled (status_code response) = true ->
  sleep_error ext (wait_for ext response backoff) = None ->
  exists w',
    loop (S n) attempt backoff w
    = loop n (attempt + 1) (py_min (backoff * 2) 30) w' /\
    grows w w'
      {| d_log := [graph_throttled self response (wait_for ext response backoff) attempt];
         d_acquired := []; d_http := [rq];
         d_slept := [wait_for ext response backoff] |} /\
    w_uuids w' = w_uuids w.
Proof.
  intros Hresp Hthr Hsleep.
  destruct (http_send_run ext rq w) as (w1 & H1 & G1 & U1). rewrite Hresp in H1.
  destruct (_log_run ext WARNING "graph_throttled"
              (lc_extra (graph_throttled self response (wait_for ext response backoff) attempt))
              w1) as (w2 & H2 & G2 & U2).
  destruct (time_sleep_run ext _ w2 Hsleep) as (w3 & H3 & G3 & U3).
  exists w3. split; [|split].
  - subst loop. cbn [request_loop]. fold rq.
    rewrite (bind_ok _ _ _ _ _ H1), Hthr.
    unfold audit_warning. fold (wait_for ext response backoff).
    cbn [lc_extra graph_throttled] in H2.
    rewrite (bind_ok _ _ _ _ _ H2), (bind_ok _ _ _ _ _ H3). reflexivity.
  - exact (grows_trans _ _ _ _ _ (grows_trans _ _ _ _ _ G1 G2) G3).
  - congruence.
Qed.

(** A throttled response whose wait [time.sleep] refuses: the event is
    logged and the exception of [time.sleep] leaves [request]. *)
Lemma loop_sleep_raises n attempt backoff w response e :
  session_request ext (length (w_http w)) rq = Ok response ->
  throttled (status_code response) = true ->
  sleep_error ext (wait_for ext response backoff) = Some e ->
  exists w',
    loop (S n) attempt backoff w = (Raise e, w') /\
    grows w w'
      {| d_log := [graph_throttled self response (wait_for ext response backoff) attempt];
         d_acquired := []; d_http := [rq]; d_slept := [] |} /\
    w_uuids w' = w_uuids w.
Proof.
  intros Hresp Hthr Hsleep.
  destruct (http_send_run ext rq w) as (w1 & H1 & G1 & U1). rewrite Hresp in H1.
  destruct (_log_run ext WARNING "graph_throttled"
              (lc_extra (graph_throttled self response (wait_for ext response backoff) attempt))
              w1) as (w2 & H2 & G2 & U2).
  exists w2. split; [|split].
  - subst loop. cbn [request_loop]. fold rq.
    rewrite (bind_ok _ _ _ _ _ H1), Hthr.
    unfold audit_warning. fold (wait_for ext response backoff).
    cbn [lc_extra graph_throttled] in H2.
    rewrite (bind_ok _ _ _ _ _ H2).
    now rewrite (bind_raise _ _ _ _ _ (time_sleep_raise ext _ _ _ Hsleep)).
  - exact (grows_trans _ _ _ _ _ G1 G2).
  - congruence.
Qed.

(** A response that is neither throttled nor below 400: the failure is
    logged with the body and [HTTPStatusError] leaves [request]. *)
Lemma loop_failed n attempt backoff w response :
  session_request ext (length (w_http w)) rq = Ok response ->
  throttled (status_code response) = false ->
  400 <= status_code response ->
  exists w',
    loop (S n) attempt backoff w = (Raise (HTTPStatusError response), w') /\
    grows w w'
      {| d_log := [graph_request_failed self url response];
         d_acquired := []; d_http := [rq]; d_slept := [] |} /\
    w_uuids w' = w_uuids w.
Proof.
  intros Hresp Hthr Hstatus.
  destruct (http_send_run ext rq w) as (w1 & H1 & G1 & U1). rewrite Hresp in H1.
  destruct (_log_run ext ERROR "graph_request_failed"
              (lc_extra (graph_request_failed self url response)) w1)
    as (w2 & H2 & G2 & U2).
  exists w2. split; [|split].
  - subst loop. cbn [request_loop]. fold rq.
    rewrite (bind_ok _ _ _ _ _ H1), Hthr.
    destruct (Z.leb_spec 400 (status_code response)) as [_|]; [|lia].
    unfold audit_error. cbn [lc_extra graph_request_failed] in H2.
    assert (Hraise : raise_for_status response w2 = (Raise (HTTPStatusError response), w2)).
    { unfold raise_for_status.
      destruct (Z.leb_spec (status_code response) 299) as [|_]; [lia|].
      now rewrite andb_false_r. }
    erewrite bind_raise; [reflexivity|].
    rewrite (bind_ok _ _ _ _ _ H2). exact Hraise.
  - exact (grows_trans _ _ _ _ _ G1 G2).
  - congruence.
Qed.

(** A response below 400 that is not throttled: success is logged and the
    response returned. *)
Lemma loop_succeeded n attempt backoff w response :
  session_request ext (length (w_http w)) rq = Ok response ->
  throttled (status_code response) = false ->
  status_code response < 400 ->
  exists w',
    loop (S n) attempt backoff w = (Ok response, w') /\
    grows w w'
      {| d_log := [graph_request_succeeded self url response];
         d_acquired := []; d_http := [rq]; d_slept := [] |} /\
    w_uuids w' = w_uuids w.
Proof.
  intros Hresp Hthr Hstatus.
  destruct (http_send_run ext rq w) as (w1 & H1 & G1 & U1). rewrite Hresp in H1.
  destruct (_log_run ext INFO "graph_request_succeeded"
              (lc_extra (graph_request_succeeded self url response)) w1)
    as (w2 & H2 & G2 & U2).
  exists w2. split; [|split].
  - subst loop. cbn [request_loop]. fold rq.
    rewrite (bind_ok _ _ _ _ _ H1), Hthr.
    destruct (Z.leb_spec 400 (status_code response)) as [|_]; [lia|].
    unfold audit_info. cbn [lc_extra graph_request_succeeded] in H2.
    unfold bind at 1, ret at 1.
    now rewrite (bind_ok _ _ _ _ _ H2).
  - exact (grows_trans _ _ _ _ _ G1 G2).
  - congruence.
Qed.

End Attempts.

(** ** The dispatcher: whole requests *)

Section Requests.

Variable ext : Externals.
Variable self : GraphClient.
Variables method url : string.
Variable kw : kwargs.

(** [request] acquires the token, then enters the loop with the merged
    headers, the full budget, attempt number 1 and backoff 1. *)
Lemma request_enters_loop scopes headers w token :
  request_token ext self scopes w = Ok token ->
  exists w1,
    request ext self method url scopes headers kw w
    = request_loop ext self method url (merged_headers token headers) kw
        (budget self) 1 1%Q w1 /\
    grows w w1
      {| d_log := [acquired_app_token (gc_authenticator self)];
         d_acquired := [effective_scopes self scopes]; d_http := []; d_slept := [] |} /\
    w_uuids w1 = w_uuids w.
Proof.
  unfold request_token. intros Htok.
  destruct (acquire_token_run ext (gc_authenticator self)
              (effective_scopes self scopes) w) as (w1 & Hrun & Hg & Hu).
  rewrite Htok in Hrun, Hg. exists w1. split; [|split; assumption].
  unfold request, _auth_header.
  unfold bind at 1. unfold bind at 1. rewrite Hrun. reflexivity.
Qed.

(** When the acquisition raises, so does [request], before any attempt. *)
Lemma request_without_token scopes headers w e :
  request_token ext self scopes w = Raise e ->
  exists w1,
    request ext self method url scopes headers kw w = (Raise e, w1) /\
    grows w w1
      {| d_log := []; d_acquired := [effective_scopes self scopes];
         d_http := []; d_slept := [] |} /\
    w_uuids w1 = w_uuids w.
Proof.
  unfold request_token. intros Htok.
  destruct (acquire_token_run ext (gc_authenticator self)
              (effective_scopes self scopes) w) as (w1 & Hrun & Hg & Hu).
  rewrite Htok in Hrun, Hg. exists w1. split; [|split; assumption].
  unfold request, _auth_header.
  unfold bind at 1. unfold bind at 1. rewrite Hrun. reflexivity.
Qed.

(** Whatever the answers, the loop acquires nothing and sends the same
    request at every attempt, at most once per unit of budget. *)
Lemma loop_sends_one_request headers n :
  forall attempt backoff w,
  exists r w' d k,
    request_loop ext self method url headers kw n attempt backoff w = (r, w') /\
    grows w w' d /\
    d_acquired d = [] /\
    d_http d = replicate k (issued method url headers kw) /\
    (k <= n)%nat.
Proof.
  induction n as [|n IH]; intros attempt backoff w.
  - exists (Raise retry_exhausted), w, (logged []), 0%nat.
    split; [reflexivity|]. split; [apply grows_refl|]. cbn. auto.
  - destruct (session_request ext (length (w_http w)) (issued method url headers kw))
      as [response|e] eqn:Hresp.
    2:{ destruct (loop_transport_raises ext self method url headers kw n attempt backoff w e Hresp)
          as (w' & Hrun & Hg & _).
        eexists _, w', _, 1%nat. split; [exact Hrun|]. split; [exact Hg|]. cbn. auto with lia. }
    destruct (throttled (status_code response)) eqn:Hthr.
    + destruct (sleep_error ext (wait_for ext response backoff)) as [e|] eqn:Hsleep.
      * destruct (loop_sleep_raises ext self method url headers kw n attempt backoff w
                    response e Hresp Hthr Hsleep) as (w' & Hrun & Hg & _).
        eexists _, w', _, 1%nat. split; [exact Hrun|]. split; [exact Hg|]. cbn. auto with lia.
      * destruct (loop_throttled ext self method url headers kw n attempt backoff w
                    response Hresp Hthr Hsleep) as (w1 & Hrun & Hg & _).
        destruct (IH (attempt + 1) (py_min (backoff * 2) 30) w1)
          as (r & w' & d & k & Hrun' & Hg' & Ha & Hh & Hk).
        eexists r, w', _, (S k). rewrite Hrun.
        split; [exact Hrun'|]. split; [exact (grows_trans _ _ _ _ _ Hg Hg')|]. cbn.
        rewrite Hh. auto with lia.
    + destruct (Z.lt_ge_cases (status_code response) 400) as [Hlt|Hge].
      * destruct (loop_succeeded ext self method url headers kw n attempt backoff w
                    response Hresp Hthr Hlt) as (w' & Hrun & Hg & _).
        eexists _, w', _, 1%nat. split; [exact Hrun|]. split; [exact Hg|]. cbn. auto with lia.
      * destruct (loop_failed ext self method url headers kw n attempt backoff w
                    response Hresp Hthr Hge) as (w' & Hrun & Hg & _).
        eexists _, w', _, 1%nat. split; [exact Hrun|]. split; [exact Hg|]. cbn. auto with lia.
Qed.

(** What any execution of [request] adds to the histories of token
    acquisitions and of HTTP calls. *)
Lemma request_histories scopes headers w :
  exists k,
    (k <= budget self)%nat /\
    w_acquired (snd (request ext self method url scopes headers kw w))
    = w_acquired w ++ [effective_scopes self scopes] /\
    w_http (snd (request ext self method url scopes headers kw w))
    = w_http w ++
      match request_token ext self scopes w with
      | Ok token => replicate k (issued method url (merged_headers token headers) kw)
      | Raise _ => []
      end.
Proof.
  destruct (request_token ext self scopes w) as [token|e] eqn:Htok.
  - destruct (request_enters_loop scopes headers w token Htok) as (w1 & Hrun & Hg & _).
    destruct (loop_sends_one_request (merged_headers token headers) (budget self) 1 1%Q w1)
      as (r & w' & d & k & Hrun' & Hg' & Ha & Hh & Hk).
    exists k. rewrite Hrun, Hrun'. cbn [snd].
    destruct (grows_trans _ _ _ _ _ Hg Hg') as (_ & H2 & H3 & _). cbn in H2, H3.
    rewrite Ha in H2. rewrite Hh in H3. auto.
  - destruct (request_without_token scopes headers w e Htok) as (w1 & Hrun & Hg & _).
    exists 0%nat. rewrite Hrun. cbn [snd].
    destruct Hg as (_ & H2 & H3 & _). split; [lia|]. auto.
Qed.


End Requests.

(** ** The claims about the dispatcher *)

Section DispatcherClaims.

Lemma since_app {A} (l k : list A) : since (length l) (l ++ k) = k.
Proof. apply drop_app_length. Qed.

(** C1, as stated: after [429 (Retry-After: 2), 429 (no header), 200] the
    dispatcher has slept 2, then 1.  It has slept 2, then 2. *)
Lemma throttled_twice_sleeps_2_then_2 :
  w_slept (snd (request (mock_ext numbered_tokens throttled_twice) contoso_client
                  "GET" users_url None None [] fresh_world))
  = [Fin 2; Fin 2] /\
  w_slept (snd (request (mock_ext numbered_tokens throttled_twice) contoso_client
                  "GET" users_url None None [] fresh_world))
  <> [Fin 2; Fin 1].
Proof. split; [vm_compute; reflexivity | vm_compute; discriminate]. Qed.

(** C1, amended.  With [max_retries = 3] and the answers
    [429 (Retry-After: 2), 429 (no header), 200], the first wait is the
    advertised 2 and the second is the backoff then in force, which is 2
    because the backoff doubles after every throttled attempt; the
    dispatcher sleeps 2, then 2, returns the 200 response on the third
    attempt, and records two [graph_throttled] events followed by one
    [graph_request_succeeded] event. *)
Theorem request_throttled_twice_then_ok :
  forall ext self method url scopes headers kw w token r1 r2 r3,
    gc_max_retries self = 3 ->
    request_token ext self scopes w = Ok token ->
    let rq := issued method url (merged_headers token headers) kw in
    session_request ext (length (w_http w)) rq = Ok r1 ->
    session_request ext (length (w_http w) + 1) rq = Ok r2 ->
    session_request ext (length (w_http w) + 2) rq = Ok r3 ->
    status_code r1 = 429 -> headers_get r1 "Retry-After" = Some "2" ->
    status_code r2 = 429 -> headers_get r2 "Retry-After" = None ->
    status_code r3 = 200 ->
    float ext "2" = Some (Fin 2) ->
    sleep_error ext (Fin 2) = None ->
    exists w',
      request ext self method url scopes headers kw w = (Ok r3, w') /\
      grows w w'
        {| d_log := [acquired_app_token (gc_authenticator self);
                     graph_throttled self r1 (Fin 2) 1;
                     graph_throttled self r2 (Fin 2) 2;
                     graph_request_succeeded self url r3];
           d_acquired := [effective_scopes self scopes];
           d_http := [rq; rq; rq];
           d_slept := [Fin 2; Fin 2] |}.
Proof.
  intros ext self method url scopes headers kw w token r1 r2 r3
    Hmax Htok rq Hr1 Hr2 Hr3 Hs1 Hh1 Hs2 Hh2 Hs3 Hfloat Hsleep.
  destruct (request_enters_loop ext self method url kw scopes headers w token Htok)
    as (w0 & Hrun0 & G0 & _).
  assert (L0 : length (w_http w0) = length (w_http w)).
  { destruct G0 as (_ & _ & -> & _). cbn. now rewrite app_nil_r. }
  assert (Hw1 : wait_for ext r1 1 = Fin 2).
  { unfold wait_for, _get_retry_after_seconds. now rewrite Hh1, Hfloat. }
  assert (Hw2 : wait_for ext r2 (py_min (1 * 2) 30) = Fin 2).
  { unfold wait_for, _get_retry_after_seconds. now rewrite Hh2. }
  destruct (loop_throttled ext self method url (merged_headers token headers) kw
              3 1 1%Q w0 r1) as (w1 & Hrun1 & G1 & _).
  { now rewrite L0. } { now rewrite Hs1. } { now rewrite Hw1. }
  assert (L1 : length (w_http w1) = (length (w_http w) + 1)%nat).
  { destruct G1 as (_ & _ & -> & _). cbn. rewrite length_app, L0. reflexivity. }
  destruct (loop_throttled ext self method url (merged_headers token headers) kw
              2 (1 + 1) (py_min (1 * 2) 30) w1 r2) as (w2 & Hrun2 & G2 & _).
  { now rewrite L1. } { now rewrite Hs2. } { now rewrite Hw2. }
  assert (L2 : length (w_http w2) = (length (w_http w) + 2)%nat).
  { destruct G2 as (_ & _ & -> & _). cbn. rewrite length_app, L1. cbn. lia. }
  destruct (loop_succeeded ext self method url (merged_headers token headers) kw
              1 (1 + 1 + 1) (py_min (py_min (1 * 2) 30 * 2) 30) w2 r3)
    as (w3 & Hrun3 & G3 & _).
  { now rewrite L2. } { now rewrite Hs3. } { rewrite Hs3. lia. }
  exists w3. split.
  - rewrite Hrun0. unfold budget. rewrite Hmax.
    change (Z.to_nat (3 + 1)) with 4%nat.
    rewrite Hrun1, Hrun2. exact Hrun3.
  - rewrite Hw1 in G1. rewrite Hw2 in G2.
    exact (grows_trans _ _ _ _ _ (grows_trans _ _ _ _ _ (grows_trans _ _ _ _ _ G0 G1) G2) G3).
Qed.

(** The scenario on the mocks. *)
Lemma request_throttled_twice_then_ok_witness :
  exists w',
    request (mock_ext numbered_tokens throttled_twice) contoso_client
      "GET" users_url None None [] fresh_world
    = (Ok (throttled_twice 2), w') /\
    w_slept w' = [Fin 2; Fin 2] /\
    map lc_message (w_log w')
    = ["acquired_app_token"; "graph_throttled"; "graph_throttled";
       "graph_request_succeeded"].
Proof.
  destruct (request_throttled_twice_then_ok
              (mock_ext numbered_tokens throttled_twice) contoso_client
              "GET" users_url None None [] fresh_world "token-0"
              (throttled_twice 0) (throttled_twice 1) (throttled_twice 2))
    as (w' & Hrun & Hlog & _ & _ & Hslept);
    try (vm_compute; reflexivity).
  exists w'. split; [exact Hrun|]. split.
  - exact Hslept.
  - rewrite Hlog. reflexivity.
Defined.

(** C2, as stated: a retried attempt re-acquires a token.  Over three
    attempts the authenticator is called once, and the two retries carry the
    token of the first attempt. *)
Lemma retries_reuse_first_token :
  let w' := snd (request (mock_ext numbered_tokens throttled_twice) contoso_client
                   "GET" users_url None None [] fresh_world) in
  length (w_http w') = 3%nat /\
  length (w_acquired w') = 1%nat /\
  map (fun rq => rq_headers rq !! "Authorization") (w_http w')
  = [Some "Bearer token-0"; Some "Bearer token-0"; Some "Bearer token-0"].
Proof. vm_compute. auto. Qed.

(** C2, amended.  Every execution of [request] calls [acquire_token] exactly
    once, for the effective scopes and before the first attempt; every
    attempt it then makes, the first and each retry alike, sends the same
    request, whose [Authorization] header is built from that one token. *)
Theorem request_acquires_token_once :
  forall ext self method url scopes headers kw w,
    exists k,
      (k <= budget self)%nat /\
      since (length (w_acquired w))
        (w_acquired (snd (request ext self method url scopes headers kw w)))
      = [effective_scopes self scopes] /\
      (forall token,
          request_token ext self scopes w = Ok token ->
          since (length (w_http w))
            (w_http (snd (request ext self method url scopes headers kw w)))
          = replicate k (issued method url (merged_headers token headers) kw)).
Proof.
  intros ext self method url scopes headers kw w.
  destruct (request_histories ext self method url kw scopes headers w)
    as (k & Hk & Ha & Hh).
  exists k. split; [exact Hk|]. split.
  - rewrite Ha. apply since_app.
  - intros token Htok. rewrite Hh, Htok. apply since_app.
Qed.

(** Three attempts, one token. *)
Lemma request_acquires_token_once_witness :
  exists k,
    w_http (snd (request (mock_ext numbered_tokens throttled_twice) contoso_client
                   "GET" users_url None None [] fresh_world))
    = replicate k (issued "GET" users_url (merged_headers "token-0" None) []).
Proof.
  destruct (request_acquires_token_once
              (mock_ext numbered_tokens throttled_twice) contoso_client
              "GET" users_url None None [] fresh_world) as (k & _ & _ & Hh).
  exists k. apply (Hh "token-0"). vm_compute. reflexivity.
Defined.





(** C4.  When the token is acquired, at least one attempt is allowed, and
    the first answer has a status of 400 or more outside [{429, 503, 504}],
    [request] records one [graph_request_failed] event holding the response
    body and raises [HTTPStatusError] for that response at once: one HTTP
    call, no sleep, no retry, no success event. *)
Theorem request_fails_without_retry :
  forall ext self method url scopes headers kw w token response,
    0 <= gc_max_retries self ->
    request_token ext self scopes w = Ok token ->
    session_request ext (length (w_http w))
      (issued method url (merged_headers token headers) kw) = Ok response ->
    400 <= status_code response ->
    throttled (status_code response) = false ->
    exists w',
      request ext self method url scopes headers kw w
      = (Raise (HTTPStatusError response), w') /\
      grows w w'
        {| d_log := [acquired_app_token (gc_authenticator self);
                     graph_request_failed self url response];
           d_acquired := [effective_scopes self scopes];
           d_http := [issued method url (merged_headers token headers) kw];
           d_slept := [] |} /\
      kwargs_get "body" (lc_extra (graph_request_failed self url response))
      = PStr (text response).
Proof.
  intros ext self method url scopes headers kw w token response Hmax Htok Hresp Hge Hthr.
  destruct (request_enters_loop ext self method url kw scopes headers w token Htok)
    as (w0 & Hrun0 & G0 & _).
  assert (Hb : exists n, budget self = S n).
  { unfold budget. exists (Z.to_nat (gc_max_retries self)). lia. }
  destruct Hb as (n & Hb).
  destruct (loop_failed ext self method url (merged_headers token headers) kw
              n 1 1%Q w0 response) as (w' & Hrun & G & _); auto.
  { destruct G0 as (_ & _ & -> & _). cbn. now rewrite app_nil_r. }
  exists w'. rewrite Hrun0, Hb.
  split; [exact Hrun|]. split; [exact (grows_trans _ _ _ _ _ G0 G)|reflexivity].
Qed.

(** A single 404. *)
Lemma request_fails_without_retry_witness :
  exists w',
    request (mock_ext numbered_tokens not_found) contoso_client
      "GET" users_url None None [] fresh_world
    = (Raise (HTTPStatusError (not_found 0)), w') /\
    map lc_message (w_log w') = ["acquired_app_token"; "graph_request_failed"] /\
    length (w_http w') = 1%nat /\
    w_slept w' = [].
Proof.
  destruct (request_fails_without_retry
              (mock_ext numbered_tokens not_found) contoso_client
              "GET" users_url None None [] fresh_world "token-0" (not_found 0))
    as (w' & Hrun & (Hlog & _ & Hhttp & Hslept) & _);
    try (vm_compute; reflexivity).
  - vm_compute. discriminate.
  - vm_compute. discriminate.
  - exists w'. split; [exact Hrun|]. rewrite Hlog, Hhttp, Hslept. auto.
Defined.

(** C9, as stated: no caller-supplied header is dropped.  A caller-supplied
    [Authorization] header is not in the call that is issued: the bearer
    header takes its place. *)
Lemma caller_authorization_is_replaced :
  let caller : gmap string string :=
    <[ "Accept" := "application/json" ]> {[ "Authorization" := "Basic Zm9v" ]} in
  caller !! "Authorization" = Some "Basic Zm9v" /\
  map (fun rq => (rq_headers rq !! "Authorization", rq_headers rq !! "Accept"))
    (w_http (snd (request (mock_ext numbered_tokens ok_200) contoso_client
                    "GET" users_url None (Some caller) [] fresh_world)))
  = [(Some "Bearer token-0", Some "application/json")].
Proof. vm_compute. auto. Qed.

(** C9, amended.  In every HTTP call [request] issues, each caller-supplied
    header other than [Authorization] is present with the caller's value (and
    nothing else is added), and [Authorization] is [Bearer <token>] for the
    token acquired, whether or not the caller supplied an [Authorization]
    header of its own. *)
Theorem request_merges_caller_headers :
  forall ext self method url scopes (caller : gmap string string) kw w rq,
    In rq (since (length (w_http w))
             (w_http (snd (request ext self method url scopes (Some caller) kw w)))) ->
    (forall name, name <> "Authorization" -> rq_headers rq !! name = caller !! name) /\
    (exists token,
        request_token ext self scopes w = Ok token /\
        rq_headers rq !! "Authorization" = Some ("Bearer " +:+ token)).
Proof.
  intros ext self method url scopes caller kw w rq Hin.
  destruct (request_histories ext self method url kw scopes (Some caller) w)
    as (k & _ & _ & Hh).
  rewrite Hh, since_app in Hin.
  destruct (request_token ext self scopes w) as [token|e]; [|destruct Hin].
  apply list_elem_of_In, elem_of_replicate in Hin as [-> _].
  unfold issued, merged_headers; cbn [rq_headers default]. split.
  - intros name Hname. apply lookup_union_r. now apply lookup_singleton_ne.
  - exists token. split; [reflexivity|].
    apply lookup_union_Some_l, lookup_singleton_eq.
Qed.

(** The caller's [Accept] header reaches the call. *)
Lemma request_merges_caller_headers_witness :
  let caller : gmap string string :=
    <[ "Accept" := "application/json" ]> {[ "Authorization" := "Basic Zm9v" ]} in
  rq_headers (issued "GET" users_url (merged_headers "token-0" (Some caller)) [])
    !! "Accept"
  = Some "application/json".
Proof.
  intros caller.
  destruct (request_merges_caller_headers
              (mock_ext numbered_tokens ok_200) contoso_client
              "GET" users_url None caller [] fresh_world
              (issued "GET" users_url (merged_headers "token-0" (Some caller)) []))
    as (Hother & _).
  - vm_compute. left. reflexivity.
  - rewrite (Hother "Accept"); [reflexivity | discriminate].
Defined.

(** C10.  For a tenant configuration that passed the [default_scopes]
    validator, a call of [request] with an empty scopes collection asks the
    authenticator for the tenant's default scopes, and no call of [request],
    whatever scopes it is given, asks for an empty scope set. *)
Theorem request_empty_scopes_fall_back :
  forall ext self method url headers kw w,
    ensure_scopes (tc_default_scopes (gc_tenant_config self))
    = Ok (tc_default_scopes (gc_tenant_config self)) ->
    since (length (w_acquired w))
      (w_acquired (snd (request ext self method url (Some []) headers kw w)))
    = [tc_default_scopes (gc_tenant_config self)] /\
    (forall scopes requested,
        In requested
          (since (length (w_acquired w))
             (w_acquired (snd (request ext self method url scopes headers kw w)))) ->
        requested <> []).
Proof.
  intros ext self method url headers kw w Hvalid.
  assert (Hne : tc_default_scopes (gc_tenant_config self) <> []).
  { intros Heq. rewrite Heq in Hvalid. discriminate. }
  split.
  - destruct (request_histories ext self method url kw (Some []) headers w)
      as (k & _ & Ha & _).
    rewrite Ha. apply since_app.
  - intros scopes requested Hin.
    destruct (request_histories ext self method url kw scopes headers w)
      as (k & _ & Ha & _).
    rewrite Ha, since_app in Hin. destruct Hin as [<-|[]].
    unfold effective_scopes. destruct scopes as [[|s scopes]|]; auto; intros [=].
Qed.

(** An empty list of scopes on the sample tenant. *)
Lemma request_empty_scopes_fall_back_witness :
  w_acquired (snd (request (mock_ext numbered_tokens ok_200) contoso_client
                     "GET" users_url (Some []) None [] fresh_world))
  = [["https://graph.microsoft.com/.default"]].
Proof.
  exact (proj1 (request_empty_scopes_fall_back
                  (mock_ext numbered_tokens ok_200) contoso_client
                  "GET" users_url None [] fresh_world eq_refl)).
Defined.

End DispatcherClaims.

(** ** The orchestrator *)

Section Orchestrator.

(** C8, as stated: an explicitly supplied correlation id appears verbatim in
    the two events.  Supplied as the empty string, it is replaced by a
    generated one. *)
Lemma empty_correlation_id_is_replaced :
  map (fun call => (lc_message call, kwargs_get "correlation_id" (lc_extra call)))
    (w_log (snd (run_operation (mock_ext numbered_tokens ok_200) contoso_manager
                   "contoso" no_operation (Some "") fresh_world)))
  = [("tenant_validated", PNone);
     ("operation_started", PStr "0");
     ("operation_completed", PStr "0")].
Proof. vm_compute. reflexivity. Qed.

Lemma with_context_run ext self tenant_id tenant w :
  get_tenant self tenant_id = Ok tenant ->
  exists w',
    with_context ext self tenant_id w = (Ok (context_of tenant), w') /\
    grows w w' (logged [tenant_validated tenant]) /\
    w_uuids w' = w_uuids w.
Proof.
  intros Hget. unfold with_context, validate_permissions, audit_info.
  destruct (_log_run ext INFO "tenant_validated" (lc_extra (tenant_validated tenant)) w)
    as (w' & Hrun & Hg & Hu).
  exists w'. split; [|split; assumption].
  unfold bind at 1, lift at 1. rewrite Hget.
  cbn [lc_extra tenant_validated] in Hrun.
  now rewrite (bind_ok _ _ _ _ _ Hrun).
Qed.

(** C8, amended.  For a configured tenant, [run_operation] settles the
    correlation id first: a supplied non-empty id is used as it is, and a
    missing or empty one is replaced by the next UUID, whose draw moves the
    source on.  It then records [tenant_validated] and [operation_started]
    with that id, runs the operation, and on its success records
    [operation_completed] with the same id; a failure of the operation is
    passed on with nothing more recorded.  When no UUID is ever drawn twice,
    a call made after further draws gets a different generated id. *)
Theorem run_operation_correlation_id :
  forall ext (A : Type) self tenant_id (operation : TenantOperations -> M A)
         correlation_id w tenant,
    get_tenant self tenant_id = Ok tenant ->
    exists cid w0 w1,
      or_uuid4 ext correlation_id w = (Ok cid, w0) /\
      (forall given, correlation_id = Some given -> given <> "" -> cid = given) /\
      (truthy_str correlation_id = false ->
       cid = uuid4 ext (w_uuids w) /\ w_uuids w0 = S (w_uuids w)) /\
      w_log w1
      = w_log w ++ [tenant_validated tenant; operation_started tenant_id cid] /\
      w_uuids w1 = w_uuids w0 /\
      (forall result w2,
          operation {| context := context_of tenant |} w1 = (Ok result, w2) ->
          exists w',
            run_operation ext self tenant_id operation correlation_id w
            = (Ok result, w') /\
            w_log w' = w_log w2 ++ [operation_completed tenant_id cid] /\
            w_uuids w' = w_uuids w2) /\
      (forall e w2,
          operation {| context := context_of tenant |} w1 = (Raise e, w2) ->
          run_operation ext self tenant_id operation correlation_id w = (Raise e, w2)) /\
      ((forall m n, uuid4 ext m = uuid4 ext n -> m = n) ->
       forall later,
         (w_uuids w < w_uuids later)%nat ->
         fst (or_uuid4 ext None later) <> Ok (uuid4 ext (w_uuids w))).
Proof.
  intros ext A self tenant_id operation correlation_id w tenant Hget.
  assert (Hid : exists cid w0,
             or_uuid4 ext correlation_id w = (Ok cid, w0) /\
             w_log w0 = w_log w /\
             (forall given, correlation_id = Some given -> given <> "" -> cid = given) /\
             (truthy_str correlation_id = false ->
              cid = uuid4 ext (w_uuids w) /\ w_uuids w0 = S (w_uuids w))).
  { destruct correlation_id as [[|c given]|]; cbn.
    - eexists _, _. split; [reflexivity|]. split; [reflexivity|]. split; auto.
      intros given [= <-]. congruence.
    - eexists _, _. split; [reflexivity|]. split; [reflexivity|]. split.
      + now intros given' [= <-].
      + discriminate.
    - eexists _, _. split; [reflexivity|]. split; [reflexivity|]. split; auto.
      discriminate. }
  destruct Hid as (cid & w0 & Hrun0 & Hlog0 & Hgiven & Hfresh).
  destruct (with_context_run ext self tenant_id tenant w0 Hget)
    as (wc & Hrunc & (Hlogc & _) & Huc).
  destruct (_log_run ext INFO "operation_started"
              (lc_extra (operation_started tenant_id cid)) wc)
    as (w1 & Hrun1 & (Hlog1 & _) & Hu1).
  cbn [lc_extra operation_started] in Hrun1. cbn in Hlogc, Hlog1.
  assert (Hprefix :
             run_operation ext self tenant_id operation correlation_id w
             = bind (operation {| context := context_of tenant |})
                 (fun result =>
                    bind (audit_info ext "operation_completed"
                            [("tenant_id", PStr tenant_id);
                             ("correlation_id", PStr cid)])
                      (fun _ => ret result)) w1).
  { unfold run_operation.
    rewrite (bind_ok _ _ _ _ _ Hrun0), (bind_ok _ _ _ _ _ Hrunc).
    unfold audit_info at 1. now rewrite (bind_ok _ _ _ _ _ Hrun1). }
  exists cid, w0, w1.
  split; [exact Hrun0|]. split; [exact Hgiven|]. split; [exact Hfresh|].
  split; [|split; [congruence|split; [|split]]].
  - rewrite Hlog1, Hlogc, Hlog0, <- app_assoc. reflexivity.
  - intros result w2 Hop.
    destruct (_log_run ext INFO "operation_completed"
                (lc_extra (operation_completed tenant_id cid)) w2)
      as (w' & Hrun' & (Hlog' & _) & Hu').
    cbn [lc_extra operation_completed] in Hrun'. cbn in Hlog'.
    exists w'. split; [|split; assumption].
    rewrite Hprefix, (bind_ok _ _ _ _ _ Hop).
    unfold audit_info. now rewrite (bind_ok _ _ _ _ _ Hrun').
  - intros e w2 Hop. now rewrite Hprefix, (bind_raise _ _ _ _ _ Hop).
  - intros Hinj later Hlater. cbn. intros [= Heq].
    apply Hinj in Heq. lia.
Qed.

(** An explicit id on the sample tenant, and a later draw. *)
Lemma run_operation_correlation_id_witness :
  exists w',
    run_operation (mock_ext numbered_tokens ok_200) contoso_manager
      "contoso" no_operation (Some "op-42") fresh_world
    = (Ok tt, w') /\
    w_log w'
    = [tenant_validated contoso;
       operation_started "contoso" "op-42";
       operation_completed "contoso" "op-42"] /\
    fst (or_uuid4 (mock_ext numbered_tokens ok_200) None later_world)
    <> Ok (uuid4 (mock_ext numbered_tokens ok_200) 0).
Proof.
  destruct (run_operation_correlation_id
              (mock_ext numbered_tokens ok_200) unit contoso_manager
              "contoso" no_operation (Some "op-42") fresh_world contoso eq_refl)
    as (cid & w0 & w1 & _ & Hgiven & _ & Hlog1 & _ & Hok & _ & Hdistinct).
  rewrite (Hgiven "op-42" eq_refl ltac:(discriminate)) in *.
  destruct (Hok tt w1 eq_refl) as (w' & Hrun & Hlog & _).
  exists w'. split; [exact Hrun|]. split.
  - rewrite Hlog, Hlog1. reflexivity.
  - apply Hdistinct.
    + intros m n Heq. exact (pretty_nat_inj m n Heq).
    + vm_compute. lia.
Defined.

End Orchestrator.

(** * Further properties *)

(** ** config.py: when [resolve] returns *)

Section SecretsMore.

(** X1. [resolve] returns a value exactly in two cases: [env] names, by a
    non-empty name, a variable set to that non-empty value (whatever the
    other two fields hold), or [env] is absent or empty and [value] is that
    non-empty value.  In every other case it raises. *)
Theorem resolve_returns_iff :
  forall (environ : gmap string string) (self : SecretRef) (v : string),
    resolve environ self = Ok v <->
    v <> "" /\
    ((exists name, sr_env self = Some name /\ name <> "" /\ environ !! name = Some v) \/
     (truthy_str (sr_env self) = false /\ sr_value self = Some v)).
Proof.
  intros environ [e val k] v; cbn [sr_env sr_value]. unfold resolve; cbn. split.
  - destruct e as [[|c name]|].
    + destruct val as [[|c' v']|]; try destruct (truthy_str k); try discriminate;
        intros [= <-]; (split; [discriminate|]); right; auto.
    + destruct (environ !! String c name) as [[|c' ev]|] eqn:Hev; try discriminate.
      intros [= <-]. split; [discriminate|]. left. exists (String c name).
      repeat split; [discriminate|exact Hev].
    + destruct val as [[|c' v']|]; try destruct (truthy_str k); try discriminate;
        intros [= <-]; (split; [discriminate|]); right; auto.
  - intros (Hv & [(name & [= ->] & Hname & Hev) | (He & [= ->])]).
    + destruct name as [|c name]; [congruence|]. rewrite Hev.
      destruct v; [congruence|reflexivity].
    + destruct e as [[|c name]|]; try discriminate;
        (destruct v; [congruence|reflexivity]).
Qed.

(** A set variable wins over an inline value. *)
Lemma resolve_returns_iff_witness :
  resolve {[ "GRAPH_CLIENT_SECRET" := "s3cret" ]}
    {| sr_env := Some "GRAPH_CLIENT_SECRET"; sr_value := Some "inline";
       sr_key_vault_secret_uri := None |}
  = Ok "s3cret".
Proof.
  apply (proj2 (resolve_returns_iff {[ "GRAPH_CLIENT_SECRET" := "s3cret" ]}
                  {| sr_env := Some "GRAPH_CLIENT_SECRET"; sr_value := Some "inline";
                     sr_key_vault_secret_uri := None |} "s3cret")).
  split; [discriminate|]. left. exists "GRAPH_CLIENT_SECRET".
  split; [reflexivity|]. split; [discriminate|reflexivity].
Defined.

End SecretsMore.

(** ** audit.py: the store and the logger *)

Section StoreMore.

(** X2. Appending to a store that holds no more than its capacity keeps it
    so; with a capacity of at least one the new event is listed first and the
    events listed before follow it in their order, as far as the capacity
    goes; with capacity zero the store stays empty. *)
Theorem store_append_puts_event_first :
  forall (self : InMemoryAuditStore) (event : AuditEvent),
    (length (_events self) <= maxlen self)%nat ->
    maxlen (store_append self event) = maxlen self /\
    (length (_events (store_append self event)) <= maxlen self)%nat /\
    (maxlen self = 0%nat -> _events (store_append self event) = []) /\
    (forall limit : nat,
        (limit < maxlen self)%nat ->
        store_list (store_append self event) (Z.of_nat (S limit))
        = event :: store_list self (Z.of_nat limit)).
Proof.
  intros self event Hinv. unfold store_append, appendleft, store_list; cbn.
  split; [reflexivity|]. split; [|split].
  - rewrite length_take. lia.
  - intros ->. reflexivity.
  - intros limit Hlimit. rewrite !slice_to_nat, take_take.
    replace (S limit `min` maxlen self)%nat with (S limit) by lia. reflexivity.
Qed.

(** A store of capacity 2 holding one event, and a second event. *)
Lemma store_append_puts_event_first_witness :
  store_list
    (store_append {| maxlen := 2; _events := [sample_event "first"] |}
       (sample_event "second")) 2
  = [sample_event "second"; sample_event "first"].
Proof.
  exact (proj2 (proj2 (proj2 (store_append_puts_event_first
                                {| maxlen := 2; _events := [sample_event "first"] |}
                                (sample_event "second")
                                ltac:(cbn; lia)))) 1%nat ltac:(cbn; lia)).
Defined.

End StoreMore.

Section LoggerMore.

Variable ext : Externals.



(** X4. A call of [_log] never raises.  It adds the call to the logger's
    history; when the logger has a store, the store receives one event, built
    from the call, at its front, so that with a capacity of at least one
    [list(1)] is that event; when the logger has no store, none is created. *)
Theorem log_feeds_store_and_logger :
  forall level message (kw : kwargs) w,
    exists w' event,
      _log ext level message kw w = (Ok tt, w') /\
      fst (_build_event ext level message kw w) = Ok event /\
      w_log w' = w_log w ++ [{| lc_level := level; lc_message := message; lc_extra := kw |}] /\
      (w_store w = None -> w_store w' = None) /\
      (forall store,
          w_store w = Some store ->
          w_store w' = Some (store_append store event) /\
          ((0 < maxlen store)%nat -> store_list (store_append store event) 1 = [event])).
Proof.
  intros level message kw w.
  unfold _log, _build_event, bind, now_isoformat, store_event, logger_log, ret; cbn.
  destruct (w_store w) as [store|] eqn:Hstore; cbn; eexists _, _;
    (split; [reflexivity|]); (split; [reflexivity|]); (split; [reflexivity|]).
  - split; [discriminate|]. intros store' [= <-]. split; [reflexivity|].
    intros Hcap. unfold store_list, store_append, appendleft; cbn.
    destruct (maxlen store); [lia|]. reflexivity.
  - split; [reflexivity|]. discriminate.
Qed.

End LoggerMore.

(** A logger with a store of capacity 2. *)
Lemma log_feeds_store_and_logger_witness :
  exists w' event,
    _log (mock_ext numbered_tokens ok_200) INFO "tenant_onboarded"
      [("tenant_id", PStr "contoso")] world_with_store = (Ok tt, w') /\
    ev_message event = "tenant_onboarded" /\
    w_store w' = Some (store_append {| maxlen := 2; _events := [] |} event) /\
    store_list (store_append {| maxlen := 2; _events := [] |} event) 1 = [event].
Proof.
  destruct (log_feeds_store_and_logger (mock_ext numbered_tokens ok_200) INFO
              "tenant_onboarded" [("tenant_id", PStr "contoso")] world_with_store)
    as (w' & event & Hrun & Hev & _ & _ & Hstore).
  destruct (Hstore {| maxlen := 2; _events := [] |} eq_refl) as (Hs & Hlist).
  exists w', event. split; [exact Hrun|]. split.
  - injection Hev as <-. reflexivity.
  - split; [exact Hs|]. apply Hlist. cbn. lia.
Defined.

(** ** auth.py: the paths through [acquire_token] *)

Section AuthenticatorMore.

(** X5. A call of [acquire_token] records exactly one [acquired_app_token]
    event when it returns and none when it raises; the event holds the tenant
    id and the authentication type and nothing else (neither token nor
    secret).  The call makes no HTTP request through the session and does not
    sleep. *)
Theorem acquire_token_events :
  forall ext self scopes w,
    since (length (w_log w)) (w_log (snd (acquire_token ext self scopes w)))
    = match fst (acquire_token ext self scopes w) with
      | Ok _ => [acquired_app_token self]
      | Raise _ => []
      end /\
    map fst (lc_extra (acquired_app_token self)) = ["tenant_id"; "auth_type"] /\
    w_http (snd (acquire_token ext self scopes w)) = w_http w /\
    w_slept (snd (acquire_token ext self scopes w)) = w_slept w.
Proof.
  intros ext self scopes w.
  destruct (acquire_token_run ext self scopes w) as (w' & Hrun & (Hl & _ & Hh & Hs) & _).
  rewrite Hrun; cbn [fst snd] in *. cbn in Hh, Hs. rewrite app_nil_r in Hh, Hs.
  split; [|auto]. rewrite Hl. apply since_app.
Qed.

(** X6. Errors that precede any exchange.  For the client-secret variant a
    failure to resolve the secret is raised as it is; for the certificate
    variant a failure to resolve the password is raised as it is, and
    otherwise a certificate file that cannot be read raises a [RuntimeError]
    naming the path and the cause; a configuration of no known variant raises
    [ValueError].  In each case nothing is recorded. *)
Theorem acquire_token_early_errors :
  forall ext self scopes w,
    (forall a e,
        tc_auth (ga_tenant_config self) = ClientSecret a ->
        resolve (environ ext) (cs_client_secret a) = Raise e ->
        fst (acquire_token ext self scopes w) = Raise e) /\
    (forall a ref e,
        tc_auth (ga_tenant_config self) = Certificate a ->
        ce_certificate_password a = Some ref ->
        resolve (environ ext) ref = Raise e ->
        fst (acquire_token ext self scopes w) = Raise e) /\
    (forall a cause,
        tc_auth (ga_tenant_config self) = Certificate a ->
        (forall ref, ce_certificate_password a = Some ref ->
                     exists p, resolve (environ ext) ref = Ok p) ->
        read_bytes ext (ce_certificate_path a) = inr cause ->
        fst (acquire_token ext self scopes w)
        = Raise (RuntimeError ("Failed to read certificate at "
                               +:+ ce_certificate_path a +:+ ": " +:+ cause))) /\
    (tc_auth (ga_tenant_config self) = OtherAuth ->
     fst (acquire_token ext self scopes w)
     = Raise (ValueError "Unsupported authentication configuration")) /\
    (forall e,
        fst (acquire_token ext self scopes w) = Raise e ->
        w_log (snd (acquire_token ext self scopes w)) = w_log w).
Proof.
  intros ext self scopes w.
  destruct (acquire_token_run ext self scopes w) as (w' & Hrun & (Hl & _) & _).
  rewrite Hrun; cbn [fst snd] in *.
  unfold token_outcome, confidential_app, _load_certificate.
  split; [|split; [|split; [|split]]].
  - intros a e Ha He. rewrite Ha. now rewrite He.
  - intros a ref e Ha Hp He. rewrite Ha. cbv beta iota. rewrite Hp. cbv beta iota.
    now rewrite He.
  - intros a cause Ha Hp Hread. rewrite Ha. cbv beta iota.
    destruct (ce_certificate_password a) as [ref|].
    + destruct (Hp ref eq_refl) as (p & ->). cbv beta iota. now rewrite Hread.
    + now rewrite Hread.
  - now intros ->.
  - intros e He. unfold token_outcome, confidential_app, _load_certificate in Hl.
    rewrite He in Hl. cbn in Hl. now rewrite app_nil_r in Hl.
Qed.

(** An unset secret variable, and an unreadable certificate. *)
Lemma acquire_token_early_errors_witness :
  fst (acquire_token (mock_ext numbered_tokens ok_200)
         {| ga_tenant_config := tailspin |} (tc_default_scopes tailspin) fresh_world)
  = Raise (ValueError "Environment variable TAILSPIN_SECRET is not set") /\
  fst (acquire_token (mock_ext numbered_tokens ok_200)
         {| ga_tenant_config := fabrikam |} (tc_default_scopes fabrikam) fresh_world)
  = Raise (RuntimeError
             "Failed to read certificate at /etc/certs/fabrikam.pem: [Errno 2] No such file or directory").
Proof.
  split.
  - destruct (acquire_token_early_errors (mock_ext numbered_tokens ok_200)
                {| ga_tenant_config := tailspin |} (tc_default_scopes tailspin)
                fresh_world) as (Hsecret & _).
    exact (Hsecret _ _ eq_refl eq_refl).
  - destruct (acquire_token_early_errors (mock_ext numbered_tokens ok_200)
                {| ga_tenant_config := fabrikam |} (tc_default_scopes fabrikam)
                fresh_world) as (_ & _ & Hcert & _).
    apply (Hcert _ _ eq_refl); [|reflexivity].
    intros ref [=].
Defined.

(** X7. For the two confidential variants, once the application is built:
    a silent acquisition that yields a non-empty result decides the outcome
    alone, whatever the client-credentials exchange would answer; one that
    yields nothing or an empty result hands the decision to the exchange,
    whose exception, if it raises, is raised as it is; an exception of the
    silent acquisition itself is raised as it is. *)
Theorem acquire_token_silent_first :
  forall ext self scopes w app,
    confidential_app ext self = Ok (Some app) ->
    let n := length (w_acquired w) in
    (forall d,
        acquire_token_silent ext n app scopes = Ok (Some d) -> d <> ∅ ->
        fst (acquire_token ext self scopes w) = _extract_token ext (Some d)) /\
    (forall silent,
        acquire_token_silent ext n app scopes = Ok silent ->
        silent = None \/ silent = Some ∅ ->
        fst (acquire_token ext self scopes w)
        = match acquire_token_for_client ext n app scopes with
          | Ok d => _extract_token ext (Some d)
          | Raise e => Raise e
          end) /\
    (forall e,
        acquire_token_silent ext n app scopes = Raise e ->
        fst (acquire_token ext self scopes w) = Raise e).
Proof.
  intros ext self scopes w app Happ n.
  destruct (acquire_token_run ext self scopes w) as (w' & Hrun & _).
  rewrite Hrun; cbn [fst]. fold n.
  assert (Hout : token_outcome ext self scopes n
                 = match confidential_result ext n app scopes with
                   | Ok result => _extract_token ext result
                   | Raise e => Raise e
                   end).
  { unfold token_outcome. rewrite Happ. unfold confidential_app in Happ.
    destruct (tc_auth (ga_tenant_config self)); try discriminate; reflexivity. }
  rewrite Hout. unfold confidential_result. split; [|split].
  - intros d -> Hd. cbn [falsy_dict]. now rewrite bool_decide_eq_false_2 by exact Hd.
  - intros silent -> [-> | ->]; cbn [falsy_dict];
      [|rewrite bool_decide_eq_true_2 by reflexivity];
      now destruct (acquire_token_for_client ext n app scopes).
  - now intros e ->.
Qed.

(** A cached token is returned although the exchange would fail. *)
Lemma acquire_token_silent_first_witness :
  fst (acquire_token cached_ext {| ga_tenant_config := contoso |}
         (tc_default_scopes contoso) fresh_world)
  = Ok "cached".
Proof.
  destruct (acquire_token_silent_first cached_ext {| ga_tenant_config := contoso |}
              (tc_default_scopes contoso) fresh_world
              {| app_client_id := "app-1";
                 app_client_credential := SecretCredential "s3cret";
                 app_authority := "https://login.microsoftonline.com/contoso" |})
    as (Hhit & _).
  - vm_compute. reflexivity.
  - rewrite (Hhit {[ "access_token" := "cached" ]}); [| reflexivity |].
    + vm_compute. reflexivity.
    + intros Hempty. apply (f_equal (fun m => m !! "access_token")) in Hempty.
      rewrite lookup_singleton_eq, lookup_empty in Hempty. discriminate.
Defined.

End AuthenticatorMore.

(** ** graph_client.py: what every execution of the loop keeps *)

Section LoopAccounts.

Variable ext : Externals.
Variable self : GraphClient.
Variables method url : string.
Variable headers : gmap string string.
Variable kw : kwargs.

Let rq := issued method url headers kw.
Let loop := request_loop ext self method url headers kw.

Lemma logged_waits_throttled response wait attempt calls :
  logged_waits (graph_throttled self response wait attempt :: calls)
  = wait :: logged_waits calls.
Proof.
  unfold logged_waits; cbn [omap list_omap]. unfold logged_wait; cbn.
  repeat case_decide; congruence.
Qed.

Lemma logged_waits_nil : logged_waits [] = [].
Proof. reflexivity. Qed.

Lemma logged_waits_failed response :
  logged_waits [graph_request_failed self url response] = [].
Proof. reflexivity. Qed.

Lemma logged_waits_succeeded response :
  logged_waits [graph_request_succeeded self url response] = [].
Proof. reflexivity. Qed.

Ltac account :=
  unfold accounted;
  cbn [d_log d_acquired d_http d_slept delta_app logged app replicate length];
  rewrite ?logged_waits_throttled, ?logged_waits_failed, ?logged_waits_succeeded,
    ?logged_waits_nil;
  cbn [length].

Lemma loop_accounts n :
  forall attempt backoff w,
  exists r w' d k,
    loop n attempt backoff w = (r, w') /\
    grows w w' d /\
    (k <= n)%nat /\
    accounted ext self url rq w r d k.
Proof.
  unfold loop.
  induction n as [|n IH]; intros attempt backoff w.
  - exists (Raise retry_exhausted), w, (logged []), 0%nat.
    split; [reflexivity|]. split; [apply grows_refl|]. split; [lia|].
    account.
    split; [reflexivity|]. split; [reflexivity|]. split; [lia|].
    split; [apply prefix_nil|]. split; [lia|]. discriminate.
  - destruct (session_request ext (length (w_http w)) rq) as [response|e] eqn:Hresp.
    2:{ destruct (loop_transport_raises ext self method url headers kw n attempt backoff w e Hresp)
          as (w' & Hrun & Hg & _).
        eexists _, w', _, 1%nat. split; [exact Hrun|]. split; [exact Hg|].
        split; [lia|]. account.
        split; [reflexivity|]. split; [reflexivity|]. split; [lia|].
        split; [apply prefix_nil|]. split; [lia|]. discriminate. }
    destruct (throttled (status_code response)) eqn:Hthr.
    + destruct (sleep_error ext (wait_for ext response backoff)) as [e|] eqn:Hsleep.
      * destruct (loop_sleep_raises ext self method url headers kw n attempt backoff w
                    response e Hresp Hthr Hsleep) as (w' & Hrun & Hg & _).
        eexists _, w', _, 1%nat. split; [exact Hrun|]. split; [exact Hg|].
        split; [lia|]. account.
        split; [reflexivity|]. split; [reflexivity|]. split; [lia|].
        split; [apply prefix_nil|]. split; [lia|]. discriminate.
      * destruct (loop_throttled ext self method url headers kw n attempt backoff w
                    response Hresp Hthr Hsleep) as (w1 & Hrun & Hg & _).
        destruct (IH (attempt + 1) (py_min (backoff * 2) 30) w1)
          as (r & w' & d & k & Hrun' & Hg' & Hk & Ha & Hh & Hs & Hp & Hl & Hok).
        assert (Hlen : length (w_http w1) = S (length (w_http w))).
        { destruct Hg as (_ & _ & -> & _). rewrite length_app. cbn. lia. }
        eexists r, w', _, (S k). rewrite Hrun.
        split; [exact Hrun'|]. split; [exact (grows_trans _ _ _ _ _ Hg Hg')|].
        split; [lia|]. account.
        split; [exact Ha|]. split; [now rewrite Hh|]. split; [lia|].
        split; [now apply prefix_cons|]. split; [lia|].
        intros resp Hr. destruct (Hok resp Hr) as (Hpos & Hans & Ht & Hst & Hlast).
        split; [lia|]. split.
        { rewrite Hlen in Hans.
          replace (length (w_http w) + S k - 1)%nat
            with (S (length (w_http w)) + k - 1)%nat by lia. exact Hans. }
        split; [exact Ht|]. split; [exact Hst|].
        destruct (d_log d) as [|c l]; [discriminate|].
        now rewrite last_cons_cons.
    + destruct (Z.lt_ge_cases (status_code response) 400) as [Hlt|Hge].
      * destruct (loop_succeeded ext self method url headers kw n attempt backoff w
                    response Hresp Hthr Hlt) as (w' & Hrun & Hg & _).
        eexists _, w', _, 1%nat. split; [exact Hrun|]. split; [exact Hg|].
        split; [lia|]. account.
        split; [reflexivity|]. split; [reflexivity|]. split; [lia|].
        split; [apply prefix_nil|]. split; [lia|].
        intros resp [= <-]. split; [lia|].
        rewrite Nat.add_sub. auto.
      * destruct (loop_failed ext self method url headers kw n attempt backoff w
                    response Hresp Hthr Hge) as (w' & Hrun & Hg & _).
        eexists _, w', _, 1%nat. split; [exact Hrun|]. split; [exact Hg|].
        split; [lia|]. account.
        split; [reflexivity|]. split; [reflexivity|]. split; [lia|].
        split; [apply prefix_nil|]. split; [lia|]. discriminate.
Qed.

End LoopAccounts.

(** ** graph_client.py: whole requests, again *)

Section RequestsMore.

Lemma logged_waits_acquired self calls :
  logged_waits (acquired_app_token self :: calls) = logged_waits calls.
Proof. reflexivity. Qed.

Lemma http_after_token w w0 (calls : list LogCall) (scopes : list (list string)) :
  grows w w0 {| d_log := calls; d_acquired := scopes; d_http := []; d_slept := [] |} ->
  w_http w0 = w_http w /\ w_slept w0 = w_slept w.
Proof. intros (_ & _ & Hh & Hs). cbn in Hh, Hs. now rewrite app_nil_r in Hh, Hs. Qed.

(** X8. A response that [request] returns is never a throttled one nor one
    of status 400 or more: it is the answer to the last HTTP call made, the
    token had been acquired, and the last event recorded is the
    [graph_request_succeeded] event of that response. *)
Theorem request_returns_only_success :
  forall ext self method url scopes headers kw w response w',
    request ext self method url scopes headers kw w = (Ok response, w') ->
    status_code response < 400 /\
    throttled (status_code response) = false /\
    last (w_log w') = Some (graph_request_succeeded self url response) /\
    exists token k,
      request_token ext self scopes w = Ok token /\
      (0 < k <= budget self)%nat /\
      length (w_http w') = (length (w_http w) + k)%nat /\
      session_request ext (length (w_http w) + k - 1)
        (issued method url (merged_headers token headers) kw) = Ok response.
Proof.
  intros ext self method url scopes headers kw w response w' Hrun.
  destruct (request_token ext self scopes w) as [token|e] eqn:Htok.
  2:{ destruct (request_without_token ext self method url kw scopes headers w e Htok)
        as (w1 & Hrun1 & _). congruence. }
  destruct (request_enters_loop ext self method url kw scopes headers w token Htok)
    as (w0 & Hrun0 & G0 & _).
  destruct (loop_accounts ext self method url (merged_headers token headers) kw
              (budget self) 1 1%Q w0)
    as (r & w1 & d & k & Hrun1 & G1 & Hk & _ & Hh & _ & _ & _ & Hok).
  rewrite Hrun0, Hrun1 in Hrun. injection Hrun as -> ->.
  destruct (Hok response eq_refl) as (Hpos & Hans & Hthr & Hst & Hlast).
  destruct (http_after_token _ _ _ _ G0) as (Hh0 & _).
  destruct (grows_trans _ _ _ _ _ G0 G1) as (Hlog & _ & Hhttp & _).
  cbn in Hlog, Hhttp. rewrite Hh in Hhttp.
  split; [exact Hst|]. split; [exact Hthr|]. split.
  - apply last_Some in Hlast as (l & Hl). rewrite Hlog, Hl.
    change (w_log w ++ acquired_app_token (gc_authenticator self) :: l ++ [graph_request_succeeded self url response])
      with (w_log w ++ (acquired_app_token (gc_authenticator self) :: l)
            ++ [graph_request_succeeded self url response]).
    rewrite app_assoc. apply last_snoc.
  - exists token, k. split; [reflexivity|]. split; [lia|]. split.
    + rewrite Hhttp, length_app, length_replicate. reflexivity.
    + rewrite Hh0 in Hans. exact Hans.
Qed.

(** The response returned after two throttled answers. *)
Lemma request_returns_only_success_witness :
  status_code (throttled_twice 2) < 400 /\
  throttled (status_code (throttled_twice 2)) = false.
Proof.
  destruct (request_returns_only_success
              (mock_ext numbered_tokens throttled_twice) contoso_client
              "GET" users_url None None [] fresh_world (throttled_twice 2)
              (snd (request (mock_ext numbered_tokens throttled_twice) contoso_client
                      "GET" users_url None None [] fresh_world)))
    as (Hst & Hthr & _).
  - vm_compute. reflexivity.
  - split; assumption.
Defined.

(** X9. In every execution of [request] the durations slept are, in
    order, the waits announced by the recorded [graph_throttled] events, of
    which at most the last was not slept (when [time.sleep] refused it); there
    are no more sleeps than HTTP calls and no more HTTP calls than
    [max_retries + 1] (none at all when that is negative). *)
Theorem request_sleeps_what_it_logs :
  forall ext self method url scopes headers kw w,
    let w' := snd (request ext self method url scopes headers kw w) in
    since (length (w_slept w)) (w_slept w')
      `prefix_of` logged_waits (since (length (w_log w)) (w_log w')) /\
    (length (logged_waits (since (length (w_log w)) (w_log w')))
     <= length (since (length (w_slept w)) (w_slept w')) + 1)%nat /\
    (length (since (length (w_slept w)) (w_slept w'))
     <= length (since (length (w_http w)) (w_http w')))%nat /\
    (length (since (length (w_http w)) (w_http w')) <= budget self)%nat.
Proof.
  intros ext self method url scopes headers kw w w'. subst w'.
  destruct (request_token ext self scopes w) as [token|e] eqn:Htok.
  - destruct (request_enters_loop ext self method url kw scopes headers w token Htok)
      as (w0 & Hrun0 & G0 & _).
    destruct (loop_accounts ext self method url (merged_headers token headers) kw
                (budget self) 1 1%Q w0)
      as (r & w1 & d & k & Hrun1 & G1 & Hk & _ & Hh & Hs & Hp & Hl & _).
    rewrite Hrun0, Hrun1; cbn [snd].
    destruct (grows_trans _ _ _ _ _ G0 G1) as (Hlog & _ & Hhttp & Hslept).
    cbn in Hlog, Hhttp, Hslept.
    rewrite Hlog, Hhttp, Hslept, !since_app, logged_waits_acquired, Hh, length_replicate.
    auto.
  - destruct (request_without_token ext self method url kw scopes headers w e Htok)
      as (w1 & Hrun1 & (Hlog & _ & Hhttp & Hslept) & _).
    rewrite Hrun1; cbn [snd]. cbn in Hlog, Hhttp, Hslept.
    rewrite Hlog, Hhttp, Hslept, !since_app. cbn.
    split; [apply prefix_nil|]. lia.
Qed.

End RequestsMore.

(** ** graph_client.py: the backoff schedule *)

Section Schedule.

Lemma backoff_at_S i : backoff_at (S i) = py_min (backoff_at i * 2) 30.
Proof. reflexivity. Qed.

Lemma backoff_at_capped k : backoff_at (5 + k) = 30%Q.
Proof.
  induction k as [|k IH]; [reflexivity|].
  replace (5 + S k)%nat with (S (5 + k)) by lia.
  rewrite backoff_at_S, IH. reflexivity.
Qed.

Lemma backoff_at_values i : backoff_at i = nth i [1; 2; 4; 8; 16]%Q 30%Q.
Proof.
  destruct i as [|[|[|[|[|i]]]]]; try reflexivity.
  change (S (S (S (S (S i))))) with (5 + i)%nat at 1.
  rewrite backoff_at_capped. now destruct i.
Qed.

(** With every answer throttled and every wait slept: the waits slept and
    the events recorded, attempt by attempt. *)
Lemma loop_schedule ext self method url headers kw (responses : nat -> Response) n :
  forall (j : nat) w,
    (forall i, (i < n)%nat ->
       session_request ext (length (w_http w) + i) (issued method url headers kw)
       = Ok (responses (j + i)%nat) /\
       throttled (status_code (responses (j + i)%nat)) = true /\
       sleep_error ext (wait_for ext (responses (j + i)%nat) (backoff_at (j + i))) = None) ->
    exists w' d,
      request_loop ext self method url headers kw n (Z.of_nat j + 1) (backoff_at j) w
      = (Raise retry_exhausted, w') /\
      grows w w' d /\
      d_slept d
      = map (fun i => wait_for ext (responses i) (backoff_at i)) (seq j n) /\
      d_log d
      = map (fun i => graph_throttled self (responses i)
                        (wait_for ext (responses i) (backoff_at i)) (Z.of_nat i + 1))
          (seq j n).
Proof.
  induction n as [|n IH]; intros j w H.
  - exists w, (logged []). split; [reflexivity|]. split; [apply grows_refl|]. cbn. auto.
  - destruct (H 0%nat ltac:(lia)) as (Hresp & Hthr & Hsleep).
    rewrite !Nat.add_0_r in *.
    destruct (loop_throttled ext self method url headers kw n (Z.of_nat j + 1)
                (backoff_at j) w _ Hresp Hthr Hsleep) as (w1 & Hrun & Hg & _).
    destruct (IH (S j) w1) as (w' & d & Hrun' & Hg' & Hs & Hl).
    { intros i Hi. destruct Hg as (_ & _ & Hhttp & _). cbn in Hhttp.
      rewrite Hhttp, length_app. cbn [length].
      replace (length (w_http w) + 1 + i)%nat with (length (w_http w) + S i)%nat by lia.
      replace (S j + i)%nat with (j + S i)%nat by lia.
      apply H. lia. }
    eexists w', _. rewrite Hrun.
    replace (Z.of_nat j + 1 + 1) with (Z.of_nat (S j) + 1) by lia.
    split; [exact Hrun'|]. split; [exact (grows_trans _ _ _ _ _ Hg Hg')|].
    cbn [d_slept d_log delta_app app seq map]. rewrite Hs, Hl. auto.
Qed.

(** X10. The backoff starts at 1, doubles after every throttled attempt and
    is capped at 30: it runs 1, 2, 4, 8, 16, 30, 30, ...  In an execution
    whose attempts are all throttled (and whose waits are all slept), the
    attempt of index [i] is recorded with attempt number [i + 1] and its
    wait, the waits slept are those recorded, and the wait of an attempt
    whose response has no usable [Retry-After] is the backoff of its index. *)
Theorem request_backoff_schedule :
  forall ext self method url scopes headers kw w token (responses : nat -> Response),
    request_token ext self scopes w = Ok token ->
    (forall i, (i < budget self)%nat ->
       session_request ext (length (w_http w) + i)
         (issued method url (merged_headers token headers) kw)
       = Ok (responses i) /\
       throttled (status_code (responses i)) = true /\
       sleep_error ext (wait_for ext (responses i) (backoff_at i)) = None) ->
    let w' := snd (request ext self method url scopes headers kw w) in
    since (length (w_slept w)) (w_slept w')
    = map (fun i => wait_for ext (responses i) (backoff_at i)) (seq 0 (budget self)) /\
    since (length (w_log w)) (w_log w')
    = acquired_app_token (gc_authenticator self)
      :: map (fun i => graph_throttled self (responses i)
                         (wait_for ext (responses i) (backoff_at i)) (Z.of_nat i + 1))
           (seq 0 (budget self)) /\
    (forall i, backoff_at i = nth i [1; 2; 4; 8; 16]%Q 30%Q) /\
    (forall i,
        _get_retry_after_seconds ext (responses i) = None ->
        wait_for ext (responses i) (backoff_at i) = Fin (backoff_at i)).
Proof.
  intros ext self method url scopes headers kw w token responses Htok H w'. subst w'.
  destruct (request_enters_loop ext self method url kw scopes headers w token Htok)
    as (w0 & Hrun0 & G0 & _).
  destruct (http_after_token _ _ _ _ G0) as (Hh0 & _).
  destruct (loop_schedule ext self method url (merged_headers token headers) kw
              responses (budget self) 0%nat w0) as (w1 & d & Hrun1 & G1 & Hs & Hl).
  { intros i Hi. rewrite Hh0. apply H, Hi. }
  rewrite Hrun0. change (Z.of_nat 0 + 1) with 1 in Hrun1.
  change (backoff_at 0) with 1%Q in Hrun1. rewrite Hrun1; cbn [snd].
  destruct (grows_trans _ _ _ _ _ G0 G1) as (Hlog & _ & _ & Hslept).
  cbn in Hlog, Hslept. rewrite Hlog, Hslept, !since_app, Hs, Hl.
  split; [reflexivity|]. split; [reflexivity|]. split; [exact backoff_at_values|].
  intros i Hi. unfold wait_for. now rewrite Hi.
Qed.

(** Four 503 answers without [Retry-After]: the waits are 1, 2, 4, 8. *)
Lemma request_backoff_schedule_witness :
  w_slept (snd (request (mock_ext numbered_tokens always_503) contoso_client
                  "GET" users_url None None [] fresh_world))
  = [Fin 1; Fin 2; Fin 4; Fin 8].
Proof.
  destruct (request_backoff_schedule
              (mock_ext numbered_tokens always_503) contoso_client
              "GET" users_url None None [] fresh_world "token-0" always_503)
    as (Hslept & _).
  - vm_compute. reflexivity.
  - intros i Hi. change (budget contoso_client) with 4%nat in Hi.
    split; [reflexivity|]. split; [reflexivity|].
    destruct i as [|[|[|[|i]]]]; [vm_compute; reflexivity ..|lia].
  - exact Hslept.
Defined.

End Schedule.

(** ** graph_client.py: how a request ends at its first attempt *)

Section FirstAttempt.

Lemma budget_positive self :
  0 <= gc_max_retries self -> exists n, budget self = S n.
Proof. intros H. unfold budget. exists (Z.to_nat (gc_max_retries self)). lia. Qed.

Lemma below_400_not_throttled status :
  status < 400 -> throttled status = false.
Proof.
  intros H. unfold throttled.
  destruct (Z.eqb_spec status 429); [lia|].
  destruct (Z.eqb_spec status 503); [lia|].
  destruct (Z.eqb_spec status 504); [lia|]. reflexivity.
Qed.

(** X11. When the token cannot be acquired, [request] raises the
    authenticator's exception without making any HTTP call, sleeping, or
    recording any event. *)
Theorem request_needs_token :
  forall ext self method url scopes headers kw w e,
    request_token ext self scopes w = Raise e ->
    exists w',
      request ext self method url scopes headers kw w = (Raise e, w') /\
      w_http w' = w_http w /\
      w_slept w' = w_slept w /\
      w_log w' = w_log w.
Proof.
  intros ext self method url scopes headers kw w e Htok.
  destruct (request_without_token ext self method url kw scopes headers w e Htok)
    as (w' & Hrun & (Hl & _ & Hh & Hs) & _).
  cbn in Hl, Hh, Hs. rewrite app_nil_r in Hl, Hh, Hs. eauto.
Qed.

(** The tenant whose secret variable is unset. *)
Lemma request_needs_token_witness :
  exists w',
    request (mock_ext numbered_tokens ok_200) tailspin_client
      "GET" users_url None None [] fresh_world
    = (Raise (ValueError "Environment variable TAILSPIN_SECRET is not set"), w') /\
    w_http w' = [].
Proof.
  destruct (request_needs_token (mock_ext numbered_tokens ok_200) tailspin_client
              "GET" users_url None None [] fresh_world
              (ValueError "Environment variable TAILSPIN_SECRET is not set"))
    as (w' & Hrun & Hh & _).
  - vm_compute. reflexivity.
  - exists w'. split; [exact Hrun|exact Hh].
Defined.

(** X12. An exception raised by the HTTP session is not caught and not
    retried: when the first call raises, [request] raises the same exception
    after that one call, having slept nothing and recorded nothing but the
    token's event. *)
Theorem request_does_not_retry_transport_errors :
  forall ext self method url scopes headers kw w token e,
    0 <= gc_max_retries self ->
    request_token ext self scopes w = Ok token ->
    session_request ext (length (w_http w))
      (issued method url (merged_headers token headers) kw) = Raise e ->
    exists w',
      request ext self method url scopes headers kw w = (Raise e, w') /\
      grows w w'
        {| d_log := [acquired_app_token (gc_authenticator self)];
           d_acquired := [effective_scopes self scopes];
           d_http := [issued method url (merged_headers token headers) kw];
           d_slept := [] |}.
Proof.
  intros ext self method url scopes headers kw w token e Hmax Htok Hresp.
  destruct (request_enters_loop ext self method url kw scopes headers w token Htok)
    as (w0 & Hrun0 & G0 & _).
  destruct (http_after_token _ _ _ _ G0) as (Hh0 & _).
  destruct (budget_positive self Hmax) as (n & Hb).
  destruct (loop_transport_raises ext self method url (merged_headers token headers) kw
              n 1 1%Q w0 e) as (w' & Hrun & G & _).
  { now rewrite Hh0. }
  exists w'. rewrite Hrun0, Hb. split; [exact Hrun|].
  exact (grows_trans _ _ _ _ _ G0 G).
Qed.

(** A session that cannot connect. *)
Lemma request_does_not_retry_transport_errors_witness :
  exists w',
    request (custom_ext decimal_float offline) contoso_client
      "GET" users_url None None [] fresh_world
    = (Raise (LibraryError "httpx" "ConnectTimeout"), w') /\
    length (w_http w') = 1%nat.
Proof.
  destruct (request_does_not_retry_transport_errors
              (custom_ext decimal_float offline) contoso_client
              "GET" users_url None None [] fresh_world "token-0"
              (LibraryError "httpx" "ConnectTimeout"))
    as (w' & Hrun & (_ & _ & Hh & _)); try (vm_compute; reflexivity).
  - vm_compute. discriminate.
  - exists w'. split; [exact Hrun|]. rewrite Hh. reflexivity.
Defined.

(** X13. When the first answer has a status below 400 (a redirect or an
    informational status as much as a 2xx), [request] returns it at once: one
    HTTP call, no sleep, and one [graph_request_succeeded] event with the
    tenant id, the status and the URL. *)
Theorem request_returns_first_success :
  forall ext self method url scopes headers kw w token response,
    0 <= gc_max_retries self ->
    request_token ext self scopes w = Ok token ->
    session_request ext (length (w_http w))
      (issued method url (merged_headers token headers) kw) = Ok response ->
    status_code response < 400 ->
    exists w',
      request ext self method url scopes headers kw w = (Ok response, w') /\
      grows w w'
        {| d_log := [acquired_app_token (gc_authenticator self);
                     graph_request_succeeded self url response];
           d_acquired := [effective_scopes self scopes];
           d_http := [issued method url (merged_headers token headers) kw];
           d_slept := [] |}.
Proof.
  intros ext self method url scopes headers kw w token response Hmax Htok Hresp Hst.
  destruct (request_enters_loop ext self method url kw scopes headers w token Htok)
    as (w0 & Hrun0 & G0 & _).
  destruct (http_after_token _ _ _ _ G0) as (Hh0 & _).
  destruct (budget_positive self Hmax) as (n & Hb).
  destruct (loop_succeeded ext self method url (merged_headers token headers) kw
              n 1 1%Q w0 response) as (w' & Hrun & G & _); auto.
  { now rewrite Hh0. }
  { now apply below_400_not_throttled. }
  exists w'. rewrite Hrun0, Hb. split; [exact Hrun|].
  exact (grows_trans _ _ _ _ _ G0 G).
Qed.

(** A 200 at the first attempt. *)
Lemma request_returns_first_success_witness :
  exists w',
    request (mock_ext numbered_tokens ok_200) contoso_client
      "GET" users_url None None [] fresh_world
    = (Ok (ok_200 0), w') /\
    map lc_message (w_log w') = ["acquired_app_token"; "graph_request_succeeded"].
Proof.
  destruct (request_returns_first_success
              (mock_ext numbered_tokens ok_200) contoso_client
              "GET" users_url None None [] fresh_world "token-0" (ok_200 0))
    as (w' & Hrun & (Hl & _)); try (vm_compute; reflexivity).
  - vm_compute. discriminate.
  - exists w'. split; [exact Hrun|]. rewrite Hl. reflexivity.
Defined.

(** X14. With a negative [max_retries] the loop has no iteration: the token
    is acquired, and [request] raises the retries-exhausted error without
    any HTTP call. *)
Theorem request_without_budget :
  forall ext self method url scopes headers kw w token,
    gc_max_retries self < 0 ->
    request_token ext self scopes w = Ok token ->
    exists w',
      request ext self method url scopes headers kw w = (Raise retry_exhausted, w') /\
      grows w w'
        {| d_log := [acquired_app_token (gc_authenticator self)];
           d_acquired := [effective_scopes self scopes];
           d_http := []; d_slept := [] |}.
Proof.
  intros ext self method url scopes headers kw w token Hmax Htok.
  destruct (request_enters_loop ext self method url kw scopes headers w token Htok)
    as (w0 & Hrun0 & G0 & _).
  exists w0. split; [|exact G0].
  rewrite Hrun0. unfold budget.
  replace (Z.to_nat (gc_max_retries self + 1)) with 0%nat by lia. reflexivity.
Qed.

(** [max_retries = -1]. *)
Lemma request_without_budget_witness :
  exists w',
    request (mock_ext numbered_tokens ok_200) impatient_client
      "GET" users_url None None [] fresh_world
    = (Raise retry_exhausted, w') /\
    w_http w' = [].
Proof.
  destruct (request_without_budget
              (mock_ext numbered_tokens ok_200) impatient_client
              "GET" users_url None None [] fresh_world "token-0")
    as (w' & Hrun & (_ & _ & Hh & _)).
  - vm_compute. reflexivity.
  - vm_compute. reflexivity.
  - exists w'. split; [exact Hrun|exact Hh].
Defined.

(** X15. A [Retry-After] value that does not parse, or parses to zero, is
    passed over: the first throttled attempt then waits the initial backoff
    of 1, and that is the wait recorded in its [graph_throttled] event. *)
Theorem request_ignores_unusable_hint :
  forall ext self method url scopes headers kw w token response hint,
    0 <= gc_max_retries self ->
    request_token ext self scopes w = Ok token ->
    session_request ext (length (w_http w))
      (issued method url (merged_headers token headers) kw) = Ok response ->
    throttled (status_code response) = true ->
    headers_get response "Retry-After" = Some hint ->
    float ext hint = None \/
    (exists f, float ext hint = Some f /\ truthy_float f = false) ->
    sleep_error ext (Fin 1) = None ->
    let w' := snd (request ext self method url scopes headers kw w) in
    exists later_calls later_waits,
      since (length (w_log w)) (w_log w')
      = acquired_app_token (gc_authenticator self)
        :: graph_throttled self response (Fin 1) 1 :: later_calls /\
      since (length (w_slept w)) (w_slept w') = Fin 1 :: later_waits.
Proof.
  intros ext self method url scopes headers kw w token response hint
    Hmax Htok Hresp Hthr Hhint Hparse Hsleep w'. subst w'.
  destruct (request_enters_loop ext self method url kw scopes headers w token Htok)
    as (w0 & Hrun0 & G0 & _).
  destruct (http_after_token _ _ _ _ G0) as (Hh0 & _).
  destruct (budget_positive self Hmax) as (n & Hb).
  assert (Hwait : wait_for ext response 1 = Fin 1).
  { unfold wait_for, _get_retry_after_seconds. rewrite Hhint.
    destruct Hparse as [-> | (f & -> & Hf)]; [reflexivity|].
    cbn. now rewrite Hf. }
  destruct (loop_throttled ext self method url (merged_headers token headers) kw
              n 1 1%Q w0 response) as (w1 & Hrun1 & G1 & _).
  { now rewrite Hh0. } { exact Hthr. } { now rewrite Hwait. }
  destruct (loop_sends_one_request ext self method url kw (merged_headers token headers)
              n (1 + 1) (py_min (1 * 2) 30) w1)
    as (r & w2 & d & k & Hrun2 & G2 & _).
  rewrite Hrun0, Hb, Hrun1, Hrun2; cbn [snd].
  destruct (grows_trans _ _ _ _ _ (grows_trans _ _ _ _ _ G0 G1) G2)
    as (Hlog & _ & _ & Hslept).
  cbn in Hlog, Hslept. rewrite Hwait in Hlog, Hslept.
  exists (d_log d), (d_slept d). rewrite Hlog, Hslept, !since_app. auto.
Qed.

(** [429 (Retry-After: 0)], then 200. *)
Lemma request_ignores_unusable_hint_witness :
  w_slept (snd (request (mock_ext numbered_tokens zero_hint) contoso_client
                  "GET" users_url None None [] fresh_world))
  = [Fin 1].
Proof.
  destruct (request_ignores_unusable_hint
              (mock_ext numbered_tokens zero_hint) contoso_client
              "GET" users_url None None [] fresh_world "token-0" (zero_hint 0) "0")
    as (calls & waits & _ & Hslept).
  - vm_compute. discriminate.
  - vm_compute. reflexivity.
  - vm_compute. reflexivity.
  - reflexivity.
  - reflexivity.
  - right. exists (Fin 0). split; vm_compute; reflexivity.
  - reflexivity.
  - cbn [fresh_world w_slept length since drop] in Hslept.
    destruct waits as [|x waits]; [exact Hslept|].
    apply (f_equal (@length pyfloat)) in Hslept. vm_compute in Hslept. discriminate.
Defined.

(** X16. An exception of [time.sleep] is not caught: when the wait of the
    first throttled answer is refused, [request] raises that exception; the
    [graph_throttled] event is already recorded, one HTTP call was made and
    no further attempt follows. *)
Theorem request_passes_sleep_errors :
  forall ext self method url scopes headers kw w token response e,
    0 <= gc_max_retries self ->
    request_token ext self scopes w = Ok token ->
    session_request ext (length (w_http w))
      (issued method url (merged_headers token headers) kw) = Ok response ->
    throttled (status_code response) = true ->
    sleep_error ext (wait_for ext response 1) = Some e ->
    exists w',
      request ext self method url scopes headers kw w = (Raise e, w') /\
      grows w w'
        {| d_log := [acquired_app_token (gc_authenticator self);
                     graph_throttled self response (wait_for ext response 1) 1];
           d_acquired := [effective_scopes self scopes];
           d_http := [issued method url (merged_headers token headers) kw];
           d_slept := [] |}.
Proof.
  intros ext self method url scopes headers kw w token response e
    Hmax Htok Hresp Hthr Hsleep.
  destruct (request_enters_loop ext self method url kw scopes headers w token Htok)
    as (w0 & Hrun0 & G0 & _).
  destruct (http_after_token _ _ _ _ G0) as (Hh0 & _).
  destruct (budget_positive self Hmax) as (n & Hb).
  destruct (loop_sleep_raises ext self method url (merged_headers token headers) kw
              n 1 1%Q w0 response e) as (w' & Hrun & G & _); auto.
  { now rewrite Hh0. }
  exists w'. rewrite Hrun0, Hb. split; [exact Hrun|].
  exact (grows_trans _ _ _ _ _ G0 G).
Qed.

(** [503 (Retry-After: nan)]. *)
Lemma request_passes_sleep_errors_witness :
  exists w',
    request (custom_ext float_with_nan nan_hint) contoso_client
      "GET" users_url None None [] fresh_world
    = (Raise (ValueError "Invalid value NaN (not a number)"), w') /\
    length (w_http w') = 1%nat.
Proof.
  destruct (request_passes_sleep_errors
              (custom_ext float_with_nan nan_hint) contoso_client
              "GET" users_url None None [] fresh_world "token-0"
              (reply 503 (Some "nan") "unavailable")
              (ValueError "Invalid value NaN (not a number)"))
    as (w' & Hrun & (_ & _ & Hh & _)); try (vm_compute; reflexivity).
  - vm_compute. discriminate.
  - exists w'. split; [exact Hrun|]. rewrite Hh. reflexivity.
Defined.

End FirstAttempt.

(** ** graph_client.py: [get] and [post] *)

Section Verbs.



End Verbs.

(** ** tenant_manager.py: the registry *)

Section Registry.

Lemma cache_fold_other (l : list TenantConfig) :
  forall (cache : gmap string TenantConfig) (tenant_id : string),
    (forall t, In t l -> tc_tenant_id t <> tenant_id) ->
    fold_left (fun cache tenant => <[ tc_tenant_id tenant := tenant ]> cache) l cache
      !! tenant_id
    = cache !! tenant_id.
Proof.
  induction l as [|t l IH]; intros cache tenant_id H; [reflexivity|].
  cbn [fold_left]. rewrite IH.
  - apply lookup_insert_ne, H. now left.
  - intros t' Ht'. apply H. now right.
Qed.

Lemma cache_fold_found (l : list TenantConfig) :
  forall (cache : gmap string TenantConfig) (tenant_id : string) (t : TenantConfig),
    fold_left (fun cache tenant => <[ tc_tenant_id tenant := tenant ]> cache) l cache
      !! tenant_id = Some t ->
    (In t l /\ tc_tenant_id t = tenant_id) \/ cache !! tenant_id = Some t.
Proof.
  induction l as [|t' l IH]; intros cache tenant_id t H; [now right|].
  cbn [fold_left] in H. apply IH in H as [[Hin Hid] | H].
  - left. split; [now right|exact Hid].
  - destruct (decide (tc_tenant_id t' = tenant_id)) as [Heq|Hne].
    + rewrite <- Heq, lookup_insert_eq in H. injection H as <-.
      left. split; [now left|exact Heq].
    + rewrite lookup_insert_ne in H by exact Hne. now right.
Qed.

(** X18. The manager built from a configuration knows exactly the tenants
    of the configuration: an id no tenant bears raises [KeyError], a tenant
    found under an id is one of the configuration bearing that id, and when
    several tenants bear the same id it is the last of them that is found. *)
Theorem manager_serves_last_configured :
  forall (config : ControlPlaneConfig) (tenant_id : string),
    ((forall t, In t (tenants config) -> tc_tenant_id t <> tenant_id) ->
     get_tenant (TenantManager_init config) tenant_id
     = Raise (KeyError ("Tenant " +:+ tenant_id +:+ " is not configured"))) /\
    (forall t,
        get_tenant (TenantManager_init config) tenant_id = Ok t ->
        In t (tenants config) /\ tc_tenant_id t = tenant_id) /\
    (forall before t after,
        tenants config = before ++ t :: after ->
        tc_tenant_id t = tenant_id ->
        (forall t', In t' after -> tc_tenant_id t' <> tenant_id) ->
        get_tenant (TenantManager_init config) tenant_id = Ok t).
Proof.
  intros [l] tenant_id. unfold get_tenant, TenantManager_init; cbn [tenants _tenant_cache].
  split; [|split].
  - intros H. now rewrite cache_fold_other, lookup_empty.
  - intros t.
    destruct (fold_left _ l ∅ !! tenant_id) as [t'|] eqn:Hl; [|discriminate].
    intros [= ->]. apply cache_fold_found in Hl as [H | H]; [exact H|].
    now rewrite lookup_empty in H.
  - intros before t after -> Hid Hafter.
    rewrite fold_left_app. cbn [fold_left].
    rewrite cache_fold_other by exact Hafter.
    now rewrite <- Hid, lookup_insert_eq.
Qed.

(** Two entries for one id: the second is served. *)
Lemma manager_serves_last_configured_witness :
  get_tenant (TenantManager_init {| tenants := [contoso; fabrikam; contoso_again] |})
    "contoso"
  = Ok contoso_again.
Proof.
  apply (proj2 (proj2 (manager_serves_last_configured
                         {| tenants := [contoso; fabrikam; contoso_again] |} "contoso"))
           [contoso; fabrikam] contoso_again []);
    [reflexivity | reflexivity | intros t' []].
Defined.

(** X19. [onboard_tenant] never raises: it records one [tenant_onboarded]
    event with the tenant's id and display name; afterwards the tenant is
    found under its id, replacing whichever tenant was there, and every other
    id finds what it found before. *)
Theorem onboard_then_get :
  forall ext self tenant w,
    exists self' w',
      onboard_tenant ext self tenant w = (Ok self', w') /\
      w_log w' = w_log w ++ [tenant_onboarded tenant] /\
      get_tenant self' (tc_tenant_id tenant) = Ok tenant /\
      (forall other,
          other <> tc_tenant_id tenant ->
          get_tenant self' other = get_tenant self other).
Proof.
  intros ext self tenant w. unfold onboard_tenant, audit_info.
  destruct (_log_run ext INFO "tenant_onboarded" (lc_extra (tenant_onboarded tenant)) w)
    as (w' & Hrun & (Hlog & _) & _).
  cbn [lc_extra tenant_onboarded] in Hrun.
  eexists _, w'. rewrite (bind_ok _ _ _ _ _ Hrun).
  split; [reflexivity|]. split; [exact Hlog|]. unfold get_tenant; cbn [_tenant_cache].
  split.
  - now rewrite lookup_insert_eq.
  - intros other Hother. now rewrite lookup_insert_ne by congruence.
Qed.

(** X20. [offboard_tenant] never raises, whether or not the tenant is
    configured, and records one [tenant_offboarded] event either way;
    afterwards the id is not found, every other id finds what it found
    before, and for an id that was not configured the manager is unchanged. *)
Theorem offboard_then_get :
  forall ext self tenant_id w,
    exists self' w',
      offboard_tenant ext self tenant_id w = (Ok self', w') /\
      w_log w' = w_log w ++ [tenant_offboarded tenant_id] /\
      get_tenant self' tenant_id
      = Raise (KeyError ("Tenant " +:+ tenant_id +:+ " is not configured")) /\
      (forall other, other <> tenant_id -> get_tenant self' other = get_tenant self other) /\
      (_tenant_cache self !! tenant_id = None -> self' = self).
Proof.
  intros ext [cache] tenant_id w. unfold offboard_tenant, audit_info.
  destruct (_log_run ext INFO "tenant_offboarded" (lc_extra (tenant_offboarded tenant_id)) w)
    as (w' & Hrun & (Hlog & _) & _).
  cbn [lc_extra tenant_offboarded] in Hrun.
  eexists _, w'. rewrite (bind_ok _ _ _ _ _ Hrun).
  split; [reflexivity|]. split; [exact Hlog|]. unfold get_tenant; cbn [_tenant_cache].
  split; [|split].
  - now rewrite lookup_delete_eq.
  - intros other Hother. now rewrite lookup_delete_ne by congruence.
  - intros Hnone. now rewrite delete_id.
Qed.

(** Offboarding a tenant that was never configured. *)
Lemma offboard_then_get_witness :
  exists w',
    offboard_tenant (mock_ext numbered_tokens ok_200) contoso_manager "fabrikam"
      fresh_world
    = (Ok contoso_manager, w') /\
    w_log w' = [tenant_offboarded "fabrikam"].
Proof.
  destruct (offboard_then_get (mock_ext numbered_tokens ok_200) contoso_manager
              "fabrikam" fresh_world)
    as (self' & w' & Hrun & Hlog & _ & _ & Hsame).
  rewrite (Hsame ltac:(vm_compute; reflexivity)) in Hrun.
  exists w'. split; [exact Hrun|exact Hlog].
Defined.

(** X21. Onboarding a tenant under an id that was free and then offboarding
    that id gives the manager back as it was, with the two events recorded in
    that order. *)
Theorem onboard_offboard_round_trip :
  forall ext self tenant w,
    _tenant_cache self !! tc_tenant_id tenant = None ->
    exists w',
      bind (onboard_tenant ext self tenant)
        (fun self' => offboard_tenant ext self' (tc_tenant_id tenant)) w
      = (Ok self, w') /\
      w_log w'
      = w_log w ++ [tenant_onboarded tenant; tenant_offboarded (tc_tenant_id tenant)].
Proof.
  intros ext [cache] tenant w Hfree. cbn [_tenant_cache] in Hfree.
  unfold onboard_tenant, offboard_tenant, audit_info.
  destruct (_log_run ext INFO "tenant_onboarded" (lc_extra (tenant_onboarded tenant)) w)
    as (w1 & Hrun1 & (Hlog1 & _) & _).
  destruct (_log_run ext INFO "tenant_offboarded"
              (lc_extra (tenant_offboarded (tc_tenant_id tenant))) w1)
    as (w2 & Hrun2 & (Hlog2 & _) & _).
  cbn [lc_extra tenant_onboarded tenant_offboarded] in Hrun1, Hrun2.
  exists w2. split.
  - unfold bind at 1. rewrite (bind_ok _ _ _ _ _ Hrun1). unfold ret at 1.
    rewrite (bind_ok _ _ _ _ _ Hrun2). unfold ret. cbn [_tenant_cache].
    now rewrite delete_insert_id.
  - rewrite Hlog2, Hlog1, <- app_assoc. reflexivity.
Qed.

(** Fabrikam comes and goes. *)
Lemma onboard_offboard_round_trip_witness :
  exists w',
    bind (onboard_tenant (mock_ext numbered_tokens ok_200) contoso_manager fabrikam)
      (fun self' => offboard_tenant (mock_ext numbered_tokens ok_200) self' "fabrikam")
      fresh_world
    = (Ok contoso_manager, w') /\
    map lc_message (w_log w') = ["tenant_onboarded"; "tenant_offboarded"].
Proof.
  destruct (onboard_offboard_round_trip (mock_ext numbered_tokens ok_200)
              contoso_manager fabrikam fresh_world)
    as (w' & Hrun & Hlog).
  - vm_compute. reflexivity.
  - exists w'. split; [exact Hrun|]. rewrite Hlog. reflexivity.
Defined.

End Registry.

(** A tenant onboarded over the sample one. *)
Lemma onboard_then_get_witness :
  exists self' w',
    onboard_tenant (mock_ext numbered_tokens ok_200) contoso_manager contoso_again
      fresh_world = (Ok self', w') /\
    get_tenant self' "contoso" = Ok contoso_again /\
    get_tenant self' "fabrikam" = get_tenant contoso_manager "fabrikam".
Proof.
  destruct (onboard_then_get (mock_ext numbered_tokens ok_200) contoso_manager
              contoso_again fresh_world)
    as (self' & w' & Hrun & _ & Hget & Hother).
  exists self', w'. split; [exact Hrun|]. split; [exact Hget|].
  apply Hother. discriminate.
Defined.

(** ** tenant_manager.py: operations from start to end *)

Section Operations.

Lemma or_uuid4_run ext correlation_id w :
  exists cid w0,
    or_uuid4 ext correlation_id w = (Ok cid, w0) /\
    grows w w0 (logged []) /\
    (truthy_str correlation_id = false -> w_uuids w0 = S (w_uuids w)) /\
    (truthy_str correlation_id = true -> w_uuids w0 = w_uuids w).
Proof.
  destruct correlation_id as [[|c given]|]; cbn; eexists _, _;
    (split; [reflexivity|]); (split; [unfold grows; cbn; now rewrite !app_nil_r|]);
    split; auto; discriminate.
Qed.

(** Up to the operation: the id is settled, the tenant validated, the start
    recorded; what follows is the operation and, if it returns, the end. *)
Lemma run_operation_unfold ext (A : Type) self tenant_id
    (operation : TenantOperations -> M A) correlation_id w tenant :
  get_tenant self tenant_id = Ok tenant ->
  exists cid w1,
    fst (or_uuid4 ext correlation_id w) = Ok cid /\
    grows w w1 (logged [tenant_validated tenant; operation_started tenant_id cid]) /\
    run_operation ext self tenant_id operation correlation_id w
    = bind (operation {| context := context_of tenant |})
        (fun result =>
           bind (audit_info ext "operation_completed"
                   [("tenant_id", PStr tenant_id); ("correlation_id", PStr cid)])
             (fun _ => ret result)) w1.
Proof.
  intros Hget.
  destruct (or_uuid4_run ext correlation_id w) as (cid & w0 & Hrun0 & G0 & _).
  destruct (with_context_run ext self tenant_id tenant w0 Hget) as (wc & Hrunc & Gc & _).
  destruct (_log_run ext INFO "operation_started"
              (lc_extra (operation_started tenant_id cid)) wc)
    as (w1 & Hrun1 & G1 & _).
  cbn [lc_extra operation_started] in Hrun1.
  exists cid, w1. rewrite Hrun0. split; [reflexivity|]. split.
  - exact (grows_trans _ _ _ _ _ (grows_trans _ _ _ _ _ G0 Gc) G1).
  - unfold run_operation.
    rewrite (bind_ok _ _ _ _ _ Hrun0), (bind_ok _ _ _ _ _ Hrunc).
    unfold audit_info at 1. now rewrite (bind_ok _ _ _ _ _ Hrun1).
Qed.

Lemma request_token_grows ext self scopes w w1 (calls : list LogCall) :
  grows w w1 (logged calls) ->
  request_token ext self scopes w1 = request_token ext self scopes w /\
  w_http w1 = w_http w.
Proof.
  intros (_ & Ha & Hh & _). cbn in Ha, Hh. rewrite app_nil_r in Ha, Hh.
  unfold request_token. now rewrite Ha, Hh.
Qed.

(** X22. For an id that is not configured, [run_operation] raises the
    [KeyError] of [get_tenant]: the operation is never run (the outcome is the
    same whatever the operation) and no event is recorded; when no
    correlation id was supplied, a UUID has been drawn all the same. *)
Theorem run_operation_unknown_tenant :
  forall ext (A : Type) self tenant_id (operation : TenantOperations -> M A)
         correlation_id w e,
    get_tenant self tenant_id = Raise e ->
    exists w',
      run_operation ext self tenant_id operation correlation_id w = (Raise e, w') /\
      fst (with_context ext self tenant_id w) = Raise e /\
      w_log w' = w_log w /\
      w_http w' = w_http w /\
      (truthy_str correlation_id = false -> w_uuids w' = S (w_uuids w)).
Proof.
  intros ext A self tenant_id operation correlation_id w e Hget.
  destruct (or_uuid4_run ext correlation_id w)
    as (cid & w0 & Hrun0 & (Hl & _ & Hh & _) & Hu & _).
  cbn in Hl, Hh. rewrite app_nil_r in Hl, Hh.
  exists w0. split; [|split; [|auto]].
  - unfold run_operation. rewrite (bind_ok _ _ _ _ _ Hrun0).
    unfold with_context. unfold bind at 1. unfold bind at 1, lift at 1.
    now rewrite Hget.
  - unfold with_context, bind, lift. now rewrite Hget.
Qed.

(** An id the sample manager does not know. *)
Lemma run_operation_unknown_tenant_witness :
  exists w',
    run_operation (mock_ext numbered_tokens ok_200) contoso_manager "fabrikam"
      no_operation None fresh_world
    = (Raise (KeyError "Tenant fabrikam is not configured"), w') /\
    w_log w' = [] /\
    w_uuids w' = 1%nat.
Proof.
  destruct (run_operation_unknown_tenant (mock_ext numbered_tokens ok_200) unit
              contoso_manager "fabrikam" no_operation None fresh_world
              (KeyError "Tenant fabrikam is not configured") eq_refl)
    as (w' & Hrun & _ & Hlog & _ & Hu).
  exists w'. split; [exact Hrun|]. split; [exact Hlog|]. exact (Hu eq_refl).
Defined.

(** X23. An operation that makes one GET through the context's client,
    answered at once with a status below 400: [run_operation] returns the
    response, having recorded, in this order, [tenant_validated],
    [operation_started], [acquired_app_token], [graph_request_succeeded] and
    [operation_completed], the second and the last with the same correlation
    id, and having made one HTTP call. *)
Theorem run_operation_get_succeeds :
  forall ext self tenant_id path correlation_id w tenant token response,
    get_tenant self tenant_id = Ok tenant ->
    let client := ctx_graph (context_of tenant) in
    let url := tc_graph_base_url tenant +:+ path in
    request_token ext client None w = Ok token ->
    session_request ext (length (w_http w))
      (issued "GET" url (merged_headers token None) []) = Ok response ->
    status_code response < 400 ->
    exists cid w',
      run_operation ext self tenant_id (get_once ext path) correlation_id w
      = (Ok response, w') /\
      fst (or_uuid4 ext correlation_id w) = Ok cid /\
      grows w w'
        {| d_log := [tenant_validated tenant;
                     operation_started tenant_id cid;
                     acquired_app_token (gc_authenticator client);
                     graph_request_succeeded client url response;
                     operation_completed tenant_id cid];
           d_acquired := [tc_default_scopes tenant];
           d_http := [issued "GET" url (merged_headers token None) []];
           d_slept := [] |}.
Proof.
  intros ext self tenant_id path correlation_id w tenant token response Hget client url
    Htok Hresp Hst.
  destruct (run_operation_unfold ext Response self tenant_id (get_once ext path)
              correlation_id w tenant Hget) as (cid & w1 & Hcid & G1 & Hrun).
  destruct (request_token_grows ext client None w w1 _ G1) as (Htok1 & Hh1).
  destruct (request_enters_loop ext client "GET" url [] None None w1 token)
    as (w0 & Hrun0 & G0 & _); [now rewrite Htok1|].
  destruct (http_after_token _ _ _ _ G0) as (Hh0 & _).
  destruct (loop_succeeded ext client "GET" url (merged_headers token None) []
              3 1 1%Q w0 response) as (w2 & Hrun2' & G2' & _).
  { now rewrite Hh0, Hh1. } { now apply below_400_not_throttled. } { exact Hst. }
  assert (Hrun2 : request ext client "GET" url None None [] w1 = (Ok response, w2)).
  { rewrite Hrun0. exact Hrun2'. }
  pose proof (grows_trans _ _ _ _ _ G0 G2') as G2.
  destruct (_log_run ext INFO "operation_completed"
              (lc_extra (operation_completed tenant_id cid)) w2)
    as (w3 & Hrun3 & G3 & _).
  cbn [lc_extra operation_completed] in Hrun3.
  exists cid, w3. split; [|split; [exact Hcid|]].
  - rewrite Hrun. unfold get_once, get; cbn [context ctx_graph].
    fold client. change (tc_graph_base_url (gc_tenant_config client)) with
      (tc_graph_base_url tenant). fold url.
    rewrite (bind_ok _ _ _ _ _ Hrun2). unfold audit_info.
    now rewrite (bind_ok _ _ _ _ _ Hrun3).
  - exact (grows_trans _ _ _ _ _ (grows_trans _ _ _ _ _ G1 G2) G3).
Qed.

(** Listing users of the sample tenant under an explicit id. *)
Lemma run_operation_get_succeeds_witness :
  exists w',
    run_operation (mock_ext numbered_tokens ok_200) contoso_manager "contoso"
      (get_once (mock_ext numbered_tokens ok_200) "/v1.0/users") (Some "op-7") fresh_world
    = (Ok (ok_200 0), w') /\
    map lc_message (w_log w')
    = ["tenant_validated"; "operation_started"; "acquired_app_token";
       "graph_request_succeeded"; "operation_completed"].
Proof.
  destruct (run_operation_get_succeeds (mock_ext numbered_tokens ok_200)
              contoso_manager "contoso" "/v1.0/users" (Some "op-7") fresh_world contoso
              "token-0" (ok_200 0) eq_refl)
    as (cid & w' & Hrun & _ & (Hlog & _)).
  - vm_compute. reflexivity.
  - vm_compute. reflexivity.
  - vm_compute. reflexivity.
  - exists w'. split; [exact Hrun|]. rewrite Hlog. reflexivity.
Defined.

(** X24. The same operation answered at once with a status of 400 or more
    outside [{429, 503, 504}]: [run_operation] raises the [HTTPStatusError]
    of that response unchanged; the events recorded are [tenant_validated],
    [operation_started], [acquired_app_token] and [graph_request_failed], and
    neither [operation_completed] nor any event of its own marks the
    failure. *)
Theorem run_operation_get_fails :
  forall ext self tenant_id path correlation_id w tenant token response,
    get_tenant self tenant_id = Ok tenant ->
    let client := ctx_graph (context_of tenant) in
    let url := tc_graph_base_url tenant +:+ path in
    request_token ext client None w = Ok token ->
    session_request ext (length (w_http w))
      (issued "GET" url (merged_headers token None) []) = Ok response ->
    400 <= status_code response ->
    throttled (status_code response) = false ->
    exists cid w',
      run_operation ext self tenant_id (get_once ext path) correlation_id w
      = (Raise (HTTPStatusError response), w') /\
      fst (or_uuid4 ext correlation_id w) = Ok cid /\
      grows w w'
        {| d_log := [tenant_validated tenant;
                     operation_started tenant_id cid;
                     acquired_app_token (gc_authenticator client);
                     graph_request_failed client url response];
           d_acquired := [tc_default_scopes tenant];
           d_http := [issued "GET" url (merged_headers token None) []];
           d_slept := [] |}.
Proof.
  intros ext self tenant_id path correlation_id w tenant token response Hget client url
    Htok Hresp Hst Hthr.
  destruct (run_operation_unfold ext Response self tenant_id (get_once ext path)
              correlation_id w tenant Hget) as (cid & w1 & Hcid & G1 & Hrun).
  destruct (request_token_grows ext client None w w1 _ G1) as (Htok1 & Hh1).
  destruct (request_enters_loop ext client "GET" url [] None None w1 token)
    as (w0 & Hrun0 & G0 & _); [now rewrite Htok1|].
  destruct (http_after_token _ _ _ _ G0) as (Hh0 & _).
  destruct (loop_failed ext client "GET" url (merged_headers token None) []
              3 1 1%Q w0 response) as (w2 & Hrun2' & G2' & _).
  { now rewrite Hh0, Hh1. } { exact Hthr. } { exact Hst. }
  assert (Hrun2 : request ext client "GET" url None None [] w1
                  = (Raise (HTTPStatusError response), w2)).
  { rewrite Hrun0. exact Hrun2'. }
  exists cid, w2. split; [|split; [exact Hcid|]].
  - rewrite Hrun. unfold get_once, get; cbn [context ctx_graph].
    fold client. change (tc_graph_base_url (gc_tenant_config client)) with
      (tc_graph_base_url tenant). fold url.
    now rewrite (bind_raise _ _ _ _ _ Hrun2).
  - exact (grows_trans _ _ _ _ _ G1 (grows_trans _ _ _ _ _ G0 G2')).
Qed.

(** Listing users answered with a 404. *)
Lemma run_operation_get_fails_witness :
  exists w',
    run_operation (mock_ext numbered_tokens not_found) contoso_manager "contoso"
      (get_once (mock_ext numbered_tokens not_found) "/v1.0/users") (Some "op-8") fresh_world
    = (Raise (HTTPStatusError (not_found 0)), w') /\
    map lc_message (w_log w')
    = ["tenant_validated"; "operation_started"; "acquired_app_token";
       "graph_request_failed"].
Proof.
  destruct (run_operation_get_fails (mock_ext numbered_tokens not_found)
              contoso_manager "contoso" "/v1.0/users" (Some "op-8") fresh_world contoso
              "token-0" (not_found 0) eq_refl)
    as (cid & w' & Hrun & _ & (Hlog & _)).
  - vm_compute. reflexivity.
  - vm_compute. reflexivity.
  - vm_compute. discriminate.
  - reflexivity.
  - exists w'. split; [exact Hrun|]. rewrite Hlog. reflexivity.
Defined.

End Operations.

(** ** webapp.py: the audit views *)

Section AuditViews.

(** X25. The audit views never fail on the [limit] parameter and always
    show a prefix of the store, most recent event first: the 100 most recent
    events (all of them when there are fewer) when the parameter is missing,
    empty or not a number; none for a limit of zero; and, for a negative
    limit, all events but the oldest ones, as many as the limit counts. *)
Theorem audit_view_limits :
  forall (int : string -> option Z) (audit_store : InMemoryAuditStore)
         (limit_param : option string),
    audit_view int audit_store limit_param `prefix_of` _events audit_store /\
    (truthy_str limit_param = false \/
     (exists given, limit_param = Some given /\ int given = None) ->
     audit_view int audit_store limit_param = take 100 (_events audit_store)) /\
    (forall given limit,
        limit_param = Some given -> given <> "" -> int given = Some limit ->
        (0 <= limit ->
         audit_view int audit_store limit_param
         = take (Z.to_nat limit) (_events audit_store)) /\
        (limit < 0 ->
         audit_view int audit_store limit_param
         = take (length (_events audit_store) - Z.to_nat (- limit))
             (_events audit_store))).
Proof.
  intros int audit_store limit_param. unfold audit_view, store_list.
  split; [|split].
  - unfold slice_to. destruct (0 <=? _); apply prefix_take.
  - intros [H | (given & -> & Hint)]; unfold audit_limit.
    + now destruct limit_param as [[|c given]|].
    + destruct given; [reflexivity|]. now rewrite Hint.
  - intros given limit -> Hgiven Hint. unfold audit_limit.
    destruct given as [|c given]; [congruence|]. rewrite Hint. unfold slice_to.
    split; intros Hl.
    + destruct (Z.leb_spec 0 limit); [reflexivity|lia].
    + destruct (Z.leb_spec 0 limit); [lia|reflexivity].
Qed.

(** A limit that is not a number, on a store of two events. *)
Lemma audit_view_limits_witness :
  audit_view (fun _ => None)
    {| maxlen := 2; _events := [sample_event "second"; sample_event "first"] |}
    (Some "ten")
  = [sample_event "second"; sample_event "first"].
Proof.
  rewrite (proj1 (proj2 (audit_view_limits (fun _ => None)
                           {| maxlen := 2;
                              _events := [sample_event "second"; sample_event "first"] |}
                           (Some "ten")))).
  - reflexivity.
  - right. exists "ten". split; reflexivity.
Defined.

End AuditViews.
